(** * rtlamr2mqtt: the monitor-mode discovery tracker

    A shallow embedding of [app/helpers/monitor_mode.py]: the classifier
    [guess_meter_type], the defaults builder [get_smart_defaults] and the
    class [MonitorModeTracker] (load, add, save, merge into the primary
    configuration), with the properties stated about them.

    Python objects are values of [pyval]: [None], booleans, integers,
    strings, lists and insertion-ordered dictionaries, with the
    operations of the interpreter the code uses on them ([Py]) and the
    exceptions these raise.  A method of the tracker runs in [M]: it
    takes the fields of [self] and the disk, and gives a result or an
    exception, the state it leaves and the records sent to the logger.

    Not modelled: floats and the other YAML scalars, the interpreter's
    limit on the length of decimal conversions, a disk that fails in the
    middle of a write.  Strings are byte strings: case conversion, blanks
    and digits follow Python on ASCII text.  A document is a tree: where
    a YAML alias makes [safe_load] give one list object in two places,
    the append of line 190 shows in both, and only what a theorem says
    of the [meters] entry itself and of the keys carries over to such a
    document.

    PyYAML is not part of the repository: [safe_dump] and [safe_load] are
    parameters of the tracker.  A theorem that needs the file written by
    one call to be read back by another says so: [reads_back] for the one
    document written, [codec_roundtrip] for every document.  PyYAML does
    not read every text back (see [Folding]). *)

From Stdlib Require Import ZArith String Ascii List Bool Lia.
From Stdlib Require Import DecimalString DecimalZ.
From stdpp Require Import base option list gmap strings.

Set Warnings "-register-all".

Local Open Scope string_scope.
Local Open Scope Z_scope.

(** ** Python values *)

Inductive pyval : Type :=
| VNone
| VBool (b : bool)
| VInt (z : Z)
| VStr (s : string)
| VList (l : list pyval)
| VDict (d : list (pyval * pyval)).

(** The exceptions the code can meet; all are subclasses of [Exception]. *)
Inductive exn : Type :=
| TypeError | KeyError | IndexError | ValueError | AttributeError
| OSError | YAMLError.

Inductive exc (A : Type) : Type :=
| Ok (a : A)
| Raise (e : exn).
Arguments Ok {A} a.
Arguments Raise {A} e.

Definition exc_bind {A B} (x : exc A) (f : A -> exc B) : exc B :=
  match x with Ok a => f a | Raise e => Raise e end.

Definition raised {A} (x : exc A) : bool :=
  match x with Ok _ => false | Raise _ => true end.

Declare Scope exc_scope.
Delimit Scope exc_scope with exc.
Notation "'do' x <- c1 ; c2" := (exc_bind c1 (fun x => c2))
  (at level 10, x name, c1 at level 100, c2 at level 200) : exc_scope.

(** ** Strings *)

Module Str.

Definition is_upper (c : ascii) : bool :=
  let n := nat_of_ascii c in (Nat.leb 65 n && Nat.leb n 90)%bool.

Definition lower_char (c : ascii) : ascii :=
  if is_upper c then ascii_of_nat (nat_of_ascii c + 32) else c.

(** [s.lower()] *)
Fixpoint lower (s : string) : string :=
  match s with
  | EmptyString => EmptyString
  | String c r => String (lower_char c) (lower r)
  end.

(** [x in s] for two strings *)
Fixpoint contains (x s : string) : bool :=
  String.prefix x s ||
  match s with
  | EmptyString => false
  | String _ r => contains x r
  end.

Fixpoint replace_from (old new s : string) (skip : nat) : string :=
  match s with
  | EmptyString => EmptyString
  | String c r =>
      match skip with
      | S k => replace_from old new r k
      | O =>
          if String.prefix old s
          then new +:+ replace_from old new r (String.length old - 1)
          else String c (replace_from old new r O)
      end
  end.

Fixpoint intersperse (new s : string) : string :=
  match s with
  | EmptyString => new
  | String c r => new +:+ String c (intersperse new r)
  end.

(** [s.replace(old, new)]: every occurrence, left to right, without
    overlap. *)
Definition replace (old new s : string) : string :=
  match old with
  | EmptyString => intersperse new s
  | _ => replace_from old new s O
  end.

(** The blanks [int] skips around the digits of an ASCII text: space,
    tab, line feed, vertical tab, form feed and carriage return.  The
    separators 28 to 31 are not among them: [int] refuses a text that
    holds one. *)
Definition is_space (c : ascii) : bool :=
  let n := nat_of_ascii c in
  (Nat.eqb n 32 || (Nat.leb 9 n && Nat.leb n 13))%bool.

Fixpoint lstrip (s : string) : string :=
  match s with
  | String c r => if is_space c then lstrip r else s
  | EmptyString => EmptyString
  end.

Fixpoint rstrip (s : string) : string :=
  match s with
  | EmptyString => EmptyString
  | String c r =>
      match rstrip r with
      | EmptyString => if is_space c then EmptyString else String c EmptyString
      | r' => String c r'
      end
  end.

Definition strip (s : string) : string := rstrip (lstrip s).

Definition digit_val (c : ascii) : option Z :=
  let n := nat_of_ascii c in
  if (Nat.leb 48 n && Nat.leb n 57)%bool then Some (Z.of_nat (n - 48)) else None.

(** Digits with single underscores between them. *)
Fixpoint parse_digits (s : string) (acc : Z) (after_digit : bool) : option Z :=
  match s with
  | EmptyString => if after_digit then Some acc else None
  | String c r =>
      if Ascii.eqb c "_"
      then (if after_digit then parse_digits r acc false else None)
      else match digit_val c with
           | Some d => parse_digits r (10 * acc + d) true
           | None => None
           end
  end.

(** [int(s)] for an ASCII string, base 10. *)
Definition to_int (s : string) : option Z :=
  match strip s with
  | String "-" r => Z.opp <$> parse_digits r 0 false
  | String "+" r => parse_digits r 0 false
  | r => parse_digits r 0 false
  end.

(** [str(z)] for an integer. *)
Definition of_int (z : Z) : string := NilZero.string_of_int (Z.to_int z).

Definition hex_digit (n : nat) : ascii :=
  if Nat.ltb n 10 then ascii_of_nat (48 + n) else ascii_of_nat (87 + n).

Definition quote : ascii := "'".
Definition dquote : ascii := "034".
Definition backslash : ascii := "\".

Fixpoint has_char (c : ascii) (s : string) : bool :=
  match s with
  | EmptyString => false
  | String c' r => Ascii.eqb c c' || has_char c r
  end.

Definition escape_char (q c : ascii) : string :=
  let n := nat_of_ascii c in
  if (Ascii.eqb c q || Ascii.eqb c backslash)%bool then String backslash (String c EmptyString)
  else if Nat.eqb n 9 then String backslash "t"
  else if Nat.eqb n 10 then String backslash "n"
  else if Nat.eqb n 13 then String backslash "r"
  else if (Nat.ltb n 32 || Nat.eqb n 127)%bool
       then String backslash (String "x" (String (hex_digit (n / 16))
              (String (hex_digit (n mod 16)) EmptyString)))
  else String c EmptyString.

Fixpoint escape (q : ascii) (s : string) : string :=
  match s with
  | EmptyString => EmptyString
  | String c r => escape_char q c +:+ escape q r
  end.

(** [repr(s)] for a string. *)
Definition repr (s : string) : string :=
  let q := if (has_char quote s && negb (has_char dquote s))%bool
           then dquote else quote in
  String q (escape q s +:+ String q EmptyString).

End Str.

(** ** Operations of the interpreter on values *)

Module Py.

Local Open Scope exc_scope.

(** [bool(v)] *)
Definition truthy (v : pyval) : bool :=
  match v with
  | VNone => false
  | VBool b => b
  | VInt z => negb (z =? 0)
  | VStr s => negb (String.eqb s "")
  | VList l => match l with [] => false | _ => true end
  | VDict d => match d with [] => false | _ => true end
  end.

Definition as_int (v : pyval) : option Z :=
  match v with
  | VBool b => Some (if b then 1 else 0)
  | VInt z => Some z
  | _ => None
  end.

Definition hashable (v : pyval) : bool :=
  match v with
  | VList _ | VDict _ => false
  | _ => true
  end.

(** [a == b] on hashable values: booleans compare as integers. *)
Definition scalar_eqb (a b : pyval) : bool :=
  match a, b with
  | VNone, VNone => true
  | VStr s, VStr t => String.eqb s t
  | _, _ =>
      match as_int a, as_int b with
      | Some x, Some y => x =? y
      | _, _ => false
      end
  end.

(** Dictionaries keep their items in insertion order. *)
Fixpoint dict_get (k : pyval) (d : list (pyval * pyval)) : option pyval :=
  match d with
  | [] => None
  | (k', v) :: r => if scalar_eqb k k' then Some v else dict_get k r
  end.

Definition dict_mem (k : pyval) (d : list (pyval * pyval)) : bool :=
  match dict_get k d with Some _ => true | None => false end.

(** [d[k] = v]: an existing key keeps its place, a new one goes last. *)
Fixpoint dict_set (k v : pyval) (d : list (pyval * pyval)) : list (pyval * pyval) :=
  match d with
  | [] => [(k, v)]
  | (k', v') :: r =>
      if scalar_eqb k k' then (k', v) :: r else (k', v') :: dict_set k v r
  end.

(** [a == b] *)
Fixpoint eqb (a b : pyval) {struct a} : bool :=
  match a, b with
  | VList l1, VList l2 =>
      (fix go (l1 l2 : list pyval) : bool :=
         match l1, l2 with
         | [], [] => true
         | x :: xs, y :: ys => eqb x y && go xs ys
         | _, _ => false
         end) l1 l2
  | VDict d1, VDict d2 =>
      Nat.eqb (length d1) (length d2) &&
      (fix go (d : list (pyval * pyval)) : bool :=
         match d with
         | [] => true
         | (k, v) :: r =>
             match dict_get k d2 with
             | Some v2 => eqb v v2
             | None => false
             end && go r
         end) d1
  | _, _ => scalar_eqb a b
  end.

Fixpoint join (sep : string) (l : list string) : string :=
  match l with
  | [] => ""
  | [x] => x
  | x :: r => x +:+ sep +:+ join sep r
  end.

(** [repr(v)] *)
Fixpoint repr (v : pyval) : string :=
  match v with
  | VNone => "None"
  | VBool b => if b then "True" else "False"
  | VInt z => Str.of_int z
  | VStr s => Str.repr s
  | VList l => "[" +:+ join ", " (map repr l) +:+ "]"
  | VDict d =>
      "{" +:+ join ", " (map (fun kv => repr kv.1 +:+ ": " +:+ repr kv.2) d) +:+ "}"
  end.

(** [str(v)], also what an f-string field formats to. *)
Definition str (v : pyval) : string :=
  match v with
  | VStr s => s
  | _ => repr v
  end.

(** [x in c] *)
Definition contains (x c : pyval) : exc bool :=
  match c with
  | VDict d => if hashable x then Ok (dict_mem x d) else Raise TypeError
  | VList l => Ok (existsb (eqb x) l)
  | VStr s => match x with VStr t => Ok (Str.contains t s) | _ => Raise TypeError end
  | _ => Raise TypeError
  end.

Definition index (n : nat) (i : Z) : option nat :=
  let j := if i <? 0 then i + Z.of_nat n else i in
  if (0 <=? j) && (j <? Z.of_nat n) then Some (Z.to_nat j) else None.

(** [c[k]] *)
Definition getitem (c k : pyval) : exc pyval :=
  match c with
  | VDict d =>
      if hashable k
      then match dict_get k d with Some v => Ok v | None => Raise KeyError end
      else Raise TypeError
  | VList l =>
      match as_int k with
      | Some i =>
          match index (length l) i with
          | Some j => match l !! j with Some v => Ok v | None => Raise IndexError end
          | None => Raise IndexError
          end
      | None => Raise TypeError
      end
  | VStr s =>
      match as_int k with
      | Some i =>
          match index (String.length s) i with
          | Some j =>
              match String.get j s with
              | Some ch => Ok (VStr (String ch ""))
              | None => Raise IndexError
              end
          | None => Raise IndexError
          end
      | None => Raise TypeError
      end
  | _ => Raise TypeError
  end.

(** [c[k] = v], giving the container after the assignment. *)
Definition setitem (c k v : pyval) : exc pyval :=
  match c with
  | VDict d => if hashable k then Ok (VDict (dict_set k v d)) else Raise TypeError
  | VList l =>
      match as_int k with
      | Some i =>
          match index (length l) i with
          | Some j => Ok (VList (<[j := v]> l))
          | None => Raise IndexError
          end
      | None => Raise TypeError
      end
  | _ => Raise TypeError
  end.

(** [len(c)] *)
Definition len (c : pyval) : exc Z :=
  match c with
  | VDict d => Ok (Z.of_nat (length d))
  | VList l => Ok (Z.of_nat (length l))
  | VStr s => Ok (Z.of_nat (String.length s))
  | _ => Raise TypeError
  end.

Fixpoint chars (s : string) : list pyval :=
  match s with
  | EmptyString => []
  | String c r => VStr (String c "") :: chars r
  end.

(** The elements [for x in c] goes through. *)
Definition iter (c : pyval) : exc (list pyval) :=
  match c with
  | VList l => Ok l
  | VDict d => Ok (map fst d)
  | VStr s => Ok (chars s)
  | _ => Raise TypeError
  end.

(** [c.items()] *)
Definition items (c : pyval) : exc (list (pyval * pyval)) :=
  match c with
  | VDict d => Ok d
  | _ => Raise AttributeError
  end.

(** [c.append(x)], giving the list after the call. *)
Definition append (c x : pyval) : exc pyval :=
  match c with
  | VList l => Ok (VList (l ++ [x]))
  | _ => Raise AttributeError
  end.

(** [v.lower()] *)
Definition lower (v : pyval) : exc pyval :=
  match v with
  | VStr s => Ok (VStr (Str.lower s))
  | _ => Raise AttributeError
  end.

(** [int(v)] *)
Definition to_int (v : pyval) : exc Z :=
  match v with
  | VInt z => Ok z
  | VBool b => Ok (if b then 1 else 0)
  | VStr s => match Str.to_int s with Some z => Ok z | None => Raise ValueError end
  | _ => Raise TypeError
  end.

(** [v > n] for an integer literal [n] *)
Definition gt (v : pyval) (n : Z) : exc bool :=
  match as_int v with
  | Some z => Ok (n <? z)
  | None => Raise TypeError
  end.

(** [x in s] for a set of strings [s] *)
Definition in_str_set (x : pyval) (s : list string) : exc bool :=
  if hashable x then Ok (existsb (fun t => scalar_eqb x (VStr t)) s)
  else Raise TypeError.

End Py.

(** ** The classifier *)

Local Open Scope exc_scope.

(** [x and x > n] in a condition *)
Definition and_gt (x : pyval) (n : Z) : exc bool :=
  if Py.truthy x then Py.gt x n else Ok false.

Definition str_in (s : string) (l : list string) : bool :=
  existsb (String.eqb s) l.

(** Lines 9-44. *)
Definition guess_meter_type (protocol consumption_rate : pyval) : exc string :=
  let protocol := if Py.truthy protocol then Str.lower (Py.str protocol) else "" in
  if str_in protocol ["idm"; "netidm"] then Ok "energy"
  else if str_in protocol ["scm"; "scm+"] then
    do high <- and_gt consumption_rate 100000;
    Ok (if high then "water" else "gas")
  else if str_in protocol ["r900"; "r900bcd"] then
    do high <- and_gt consumption_rate 50000;
    Ok (if high then "water" else "gas")
  else Ok "energy".

(** Lines 47-78. *)
Definition get_smart_defaults (meter_id protocol device_class : pyval) : exc pyval :=
  do id <- Py.to_int meter_id;
  do proto <- Py.lower protocol;
  let defaults :=
    [ (VStr "id", VInt id);
      (VStr "protocol", proto);
      (VStr "name", VStr ("meter_" +:+ Py.str meter_id));
      (VStr "device_class", device_class);
      (VStr "state_class", VStr "total_increasing") ] in
  let defaults :=
    if Py.eqb device_class (VStr "water") then
      Py.dict_set (VStr "unit_of_measurement") (VStr "gal")
        (Py.dict_set (VStr "format") (VStr "######.##") defaults)
    else if Py.eqb device_class (VStr "gas") then
      Py.dict_set (VStr "unit_of_measurement") (VStr "ftÂ³")
        (Py.dict_set (VStr "format") (VStr "######.##") defaults)
    else if Py.eqb device_class (VStr "energy") then
      Py.dict_set (VStr "unit_of_measurement") (VStr "kWh")
        (Py.dict_set (VStr "format") (VStr "######.###") defaults)
    else defaults in
  Ok (VDict defaults).

(** ** Files, log records and the tracker's state *)

Inductive level : Type := INFO | WARNING | ERROR.

Inductive log_arg : Type :=
| AVal (v : pyval)
| AInt (z : Z)
| AExn (e : exn).

Record log_record : Type := LogRecord {
  lvl : level;
  msg : string;
  args : list log_arg
}.

(** [self.config_path.replace(...).replace(...)], lines 105 and 147. *)
Definition discovered_file (config_path : string) : string :=
  Str.replace ".yml" "_discovered.yaml"
    (Str.replace ".yaml" "_discovered.yaml" config_path).

Section Tracker.

(** What a file holds, and PyYAML's two functions on it. *)
Context {bytes : Type}.
Variable safe_dump : pyval -> bytes.
Variable safe_load : bytes -> exc pyval.

(** A regular file, with what the process may do with it. *)
Record file : Type := File {
  readable : bool;
  writable : bool;
  content : bytes
}.

(** The files by path, and the paths at which the process may create
    one. *)
Record filesystem : Type := Filesystem {
  files : gmap string file;
  can_create : string -> bool
}.

(** [os.path.isfile(p) and os.access(p, os.R_OK)] *)
Definition isfile_readable (d : filesystem) (p : string) : bool :=
  match files d !! p with
  | Some f => readable f
  | None => false
  end.

(** [open(p, 'r')] and reading the whole file *)
Definition read_file (d : filesystem) (p : string) : exc bytes :=
  match files d !! p with
  | Some f => if readable f then Ok (content f) else Raise OSError
  | None => Raise OSError
  end.

(** [open(p, 'w')] and writing the whole file *)
Definition write_file (d : filesystem) (p : string) (b : bytes) : exc filesystem :=
  match files d !! p with
  | Some f =>
      if writable f
      then Ok (Filesystem (<[p := File (readable f) true b]> (files d)) (can_create d))
      else Raise OSError
  | None =>
      if can_create d p
      then Ok (Filesystem (<[p := File true true b]> (files d)) (can_create d))
      else Raise OSError
  end.

(** The fields of [self], and the disk. *)
Record state : Type := State {
  config_path : string;
  max_meters : Z;
  logger : bool;
  discovered_meters : pyval;
  disk : filesystem
}.

Definition set_discovered_meters (v : pyval) (s : state) : state :=
  State (config_path s) (max_meters s) (logger s) v (disk s).

Definition set_disk (d : filesystem) (s : state) : state :=
  State (config_path s) (max_meters s) (logger s) (discovered_meters s) d.

(** A method runs from a state to a result or an exception, the state
    it leaves, and the records it sends to the logger. *)
Definition M (A : Type) : Type := state -> exc A * state * list log_record.

Definition ret {A} (a : A) : M A := fun s => (Ok a, s, []).

Definition bind {A B} (m : M A) (f : A -> M B) : M B :=
  fun s =>
    match m s with
    | (Ok a, s1, l1) => let '(r, s2, l2) := f a s1 in (r, s2, (l1 ++ l2)%list)
    | (Raise e, s1, l1) => (Raise e, s1, l1)
    end.

Definition lift {A} (x : exc A) : M A := fun s => (x, s, []).

Definition get {A} (f : state -> A) : M A := fun s => (Ok (f s), s, []).

Definition modify (f : state -> state) : M unit := fun s => (Ok tt, f s, []).

(** [try: body except Exception as e: handler(e)] *)
Definition try_except {A} (body : M A) (handler : exn -> M A) : M A :=
  fun s =>
    match body s with
    | (Raise e, s1, l1) => let '(r, s2, l2) := handler e s1 in (r, s2, (l1 ++ l2)%list)
    | ok => ok
    end.

(** [self.logger.<lvl>(msg, *args)] *)
Definition emit (lv : level) (m : string) (a : list log_arg) : M unit :=
  fun s => (Ok tt, s, [LogRecord lv m a]).

Definition when (b : bool) (m : M unit) : M unit := if b then m else ret tt.

(** [if self.logger: ...] *)
Definition if_logger (m : M unit) : M unit :=
  fun s => when (logger s) m s.

Declare Scope m_scope.
Delimit Scope m_scope with M.
Notation "'do' x <- c1 ; c2" := (bind c1 (fun x => c2))
  (at level 10, x name, c1 at level 100, c2 at level 200) : m_scope.
Local Open Scope m_scope.

(** ** The methods of [MonitorModeTracker] *)

(** Lines 101-116. *)
Definition load_discovered_meters : M unit :=
  do path <- get (fun s => discovered_file (config_path s));
  do d <- get disk;
  when (isfile_readable d path)
    (try_except
       (do b <- lift (read_file d path);
        do data <- lift (safe_load b);
        do has <- lift (if Py.truthy data
                        then Py.contains (VStr "discovered_meters") data
                        else Ok false);
        when has
          (do v <- lift (Py.getitem data (VStr "discovered_meters"));
           do _ <- modify (set_discovered_meters v);
           if_logger
             (do n <- lift (Py.len v);
              emit INFO "Loaded %d previously discovered meters" [AInt n])))
       (fun e =>
          if_logger (emit WARNING "Failed to load discovered meters: %s" [AExn e]))).

(** Lines 86-99: the constructor, on a given disk. *)
Definition init (path : string) (max : Z) (lg : bool) (d : filesystem)
  : exc unit * state * list log_record :=
  load_discovered_meters (State path max lg (VDict []) d).

(** Lines 118-141. *)
Definition add_meter (meter_id protocol consumption : pyval) : M unit :=
  let protocol := if Py.truthy protocol then Py.str protocol else "" in
  do meters <- get discovered_meters;
  do present <- lift (Py.contains meter_id meters);
  when (negb present)
    (do n <- lift (Py.len meters);
     do max <- get max_meters;
     when (n <? max)
       (do device_class <- lift (guess_meter_type (VStr protocol) consumption);
        do meters' <- lift (Py.setitem meters meter_id
                       (VDict [ (VStr "protocol", VStr (Str.lower protocol));
                                (VStr "device_class", VStr device_class);
                                (VStr "first_seen_consumption", consumption) ]));
        do _ <- modify (set_discovered_meters meters');
        if_logger
          (emit INFO "Discovered new meter: ID=%s, Protocol=%s, Type=%s"
             [AVal meter_id; AVal (VStr protocol); AVal (VStr device_class)]))).

(** Lines 143-156. *)
Definition save_discovered_meters : M unit :=
  do path <- get (fun s => discovered_file (config_path s));
  try_except
    (do meters <- get discovered_meters;
     let data := VDict [(VStr "discovered_meters", meters)] in
     do d <- get disk;
     do d' <- lift (write_file d path (safe_dump data));
     do _ <- modify (set_disk d');
     if_logger
       (do n <- lift (Py.len meters);
        emit INFO "Saved %d discovered meters to %s" [AInt n; AVal (VStr path)]))
    (fun e =>
       if_logger (emit ERROR "Failed to save discovered meters: %s" [AExn e])).

(** Line 177: [{str(m['id']) for m in config['meters']}]. *)
Fixpoint str_ids (ms : list pyval) : exc (list string) :=
  match ms with
  | [] => Ok []
  | m :: r =>
      (do i <- Py.getitem m (VStr "id");
       do ids <- str_ids r;
       Ok (Py.str i :: ids))%exc
  end.

(** [config['meters'].append(x)]: the list is changed in place, so
    [config] holds the longer list afterwards.  In a tree only the entry
    [meters] shows it; an entry that is the same list object through a
    YAML alias is not followed. *)
Definition append_meter (config x : pyval) : exc pyval :=
  (do l <- Py.getitem config (VStr "meters");
   do l' <- Py.append l x;
   Py.setitem config (VStr "meters") l')%exc.

(** Lines 182-191: the loop over [self.discovered_meters.items()]. *)
Fixpoint add_discovered (items : list (pyval * pyval)) (existing_ids : list string)
    (max : Z) (config : pyval) (added_count : Z) : exc (pyval * Z) :=
  match items with
  | [] => Ok (config, added_count)
  | (meter_id, meter_info) :: rest =>
      (do present <- Py.in_str_set meter_id existing_ids;
       if negb present && (added_count <? max) then
         do protocol <- Py.getitem meter_info (VStr "protocol");
         do device_class <- Py.getitem meter_info (VStr "device_class");
         do defaults <- get_smart_defaults meter_id protocol device_class;
         do config' <- append_meter config defaults;
         add_discovered rest existing_ids max config' (added_count + 1)
       else add_discovered rest existing_ids max config added_count)%exc
  end.

(** Lines 171-179: the configuration read, and the ids already in it. *)
Definition existing_meters (config : pyval) : exc (list string * pyval) :=
  (let config := match config with VNone => VDict [] | _ => config end in
   do has <- Py.contains (VStr "meters") config;
   do nonempty <- (if has
                   then do m <- Py.getitem config (VStr "meters"); Ok (Py.truthy m)
                   else Ok false);
   if nonempty then
     do m <- Py.getitem config (VStr "meters");
     do ms <- Py.iter m;
     do ids <- str_ids ms;
     Ok (ids, config)
   else
     do config' <- Py.setitem config (VStr "meters") (VList []);
     Ok ([], config'))%exc.

(** Lines 158-203. *)
Definition update_config_with_discovered_meters : M unit :=
  do meters <- get discovered_meters;
  if negb (Py.truthy meters) then ret tt else
  try_except
    (do path <- get config_path;
     do d <- get disk;
     do b <- lift (read_file d path);
     do config <- lift (safe_load b);
     do ec <- lift (existing_meters config);
     do items <- lift (Py.items meters);
     do max <- get max_meters;
     do ca <- lift (add_discovered items ec.1 max ec.2 0);
     when (0 <? ca.2)
       (do d' <- lift (write_file d path (safe_dump ca.1));
        do _ <- modify (set_disk d');
        if_logger
          (emit INFO "Added %d discovered meters to config file" [AInt ca.2])))
    (fun e =>
       if_logger
         (emit ERROR "Failed to update config with discovered meters: %s" [AExn e])).

(** ** The owning process *)



Definition result_of {A} (o : exc A * state * list log_record) : exc A := o.1.1.
Definition state_of {A} (o : exc A * state * list log_record) : state := o.1.2.
Definition log_of {A} (o : exc A * state * list log_record) : list log_record := o.2.


End Tracker.

Arguments state : clear implicits.
Arguments filesystem : clear implicits.
Arguments file : clear implicits.

(** Induction on a value, through the lists and dictionaries in it. *)
Section PyvalInd.

Variable P : pyval -> Prop.
Hypothesis Hnone : P VNone.
Hypothesis Hbool : forall b, P (VBool b).
Hypothesis Hint : forall z, P (VInt z).
Hypothesis Hstr : forall s, P (VStr s).
Hypothesis Hlist : forall l, Forall P l -> P (VList l).
Hypothesis Hdict : forall d, Forall (fun kv => P kv.2) d -> P (VDict d).

Fixpoint pyval_nested_ind (v : pyval) : P v :=
  match v with
  | VNone => Hnone
  | VBool b => Hbool b
  | VInt z => Hint z
  | VStr s => Hstr s
  | VList l =>
      Hlist l ((fix go (l : list pyval) : Forall P l :=
                  match l with
                  | [] => List.Forall_nil P
                  | x :: r => @List.Forall_cons _ P x r (pyval_nested_ind x) (go r)
                  end) l)
  | VDict d =>
      Hdict d ((fix go (d : list (pyval * pyval)) : Forall (fun kv => P kv.2) d :=
                  match d with
                  | [] => List.Forall_nil _
                  | kv :: r => @List.Forall_cons _ (fun kv => P kv.2) kv r (pyval_nested_ind kv.2) (go r)
                  end) d)
  end.

End PyvalInd.

(** ** Documents read back from a file *)

(** Two documents with the same content: mappings are compared the way
    [==] compares dictionaries, by size and by key, whatever the order
    of their items. *)
Inductive same_doc : pyval -> pyval -> Prop :=
| same_none : same_doc VNone VNone
| same_bool b : same_doc (VBool b) (VBool b)
| same_int z : same_doc (VInt z) (VInt z)
| same_str s : same_doc (VStr s) (VStr s)
| same_list l l' : Forall2 same_doc l l' -> same_doc (VList l) (VList l')
| same_dict d d' :
    length d = length d' ->
    (forall k, option_Forall2 same_doc (Py.dict_get k d) (Py.dict_get k d')) ->
    same_doc (VDict d) (VDict d').

(** What is assumed of PyYAML: loading what was dumped gives the document
    back, up to the order of mapping keys ([safe_dump] sorts them). *)
Definition codec_roundtrip {bytes : Type}
    (safe_dump : pyval -> bytes) (safe_load : bytes -> exc pyval) : Prop :=
  forall v, exists v', safe_load (safe_dump v) = Ok v' /\ same_doc v v'.

(** The same of one document: [v] is read back as it was dumped. *)
Definition reads_back {bytes : Type}
    (safe_dump : pyval -> bytes) (safe_load : bytes -> exc pyval) (v : pyval) : Prop :=
  exists v', safe_load (safe_dump v) = Ok v' /\ same_doc v v'.

(** A codec for examples: the file holds the document itself. *)
Module Plain.
Definition dump (v : pyval) : pyval := v.
Definition load (b : pyval) : exc pyval := Ok b.
Definition no_files : filesystem pyval := Filesystem ∅ (fun _ => true).
Definition with_file (p : string) (v : pyval) (d : filesystem pyval) : filesystem pyval :=
  Filesystem (<[p := File true true v]> (files d)) (can_create d).
End Plain.

(** ** The classification policy, as specified *)

Inductive device_class : Type := Gas | Water | Energy.

Definition device_class_name (c : device_class) : string :=
  match c with Gas => "gas" | Water => "water" | Energy => "energy" end.

Definition exceeds (consumption : option Z) (threshold : Z) : bool :=
  match consumption with
  | Some c => threshold <? c
  | None => false
  end.

(** First match wins, on the lower-cased protocol. *)
Definition classify (protocol : string) (consumption : option Z) : device_class :=
  let p := Str.lower protocol in
  if decide (p = "idm" \/ p = "netidm") then Energy
  else if decide (p = "scm" \/ p = "scm+") then
    (if exceeds consumption 100000 then Water else Gas)
  else if decide (p = "r900" \/ p = "r900bcd") then
    (if exceeds consumption 50000 then Water else Gas)
  else Energy.

Definition optional_int (c : option Z) : pyval :=
  match c with Some z => VInt z | None => VNone end.

(** ** Shorthands for the statements *)

(** The entry [add_meter] builds. *)
Definition new_entry (protocol : string) (device_class : string) (consumption : pyval) : pyval :=
  VDict [ (VStr "protocol", VStr (Str.lower protocol));
          (VStr "device_class", VStr device_class);
          (VStr "first_seen_consumption", consumption) ].

Definition protocol_text (protocol : pyval) : string :=
  if Py.truthy protocol then Py.str protocol else "".

(** What a merge pass computes before it writes anything: the
    configuration with the additions, and their number. *)
Definition merge_plan {bytes : Type} (safe_load : bytes -> exc pyval)
    (s : state bytes) : exc (pyval * Z) :=
  (do b <- read_file (disk s) (config_path s);
   do config <- safe_load b;
   do ec <- existing_meters config;
   do items <- Py.items (discovered_meters s);
   add_discovered items ec.1 (max_meters s) ec.2 0)%exc.

Definition merge_failed {bytes : Type} (s : state bytes) (e : exn) : list log_record :=
  if logger s
  then [LogRecord ERROR "Failed to update config with discovered meters: %s" [AExn e]]
  else [].

Definition merge_added {bytes : Type} (s : state bytes) (n : Z) : list log_record :=
  if logger s
  then [LogRecord INFO "Added %d discovered meters to config file" [AInt n]]
  else [].

(** A meter definition with no [id] to read. *)
Definition lacks_id (m : pyval) : Prop := raised (Py.getitem m (VStr "id")) = true.

(** The catalog is a dictionary of at most [max_meters] entries. *)
Definition within_capacity {bytes : Type} (s : state bytes) : Prop :=
  exists d, discovered_meters s = VDict d /\ Z.of_nat (length d) <= max_meters s.


(** The catalog file can be written, and read afterwards. *)
Definition can_save {bytes : Type} (s : state bytes) : Prop :=
  match files (disk s) !! discovered_file (config_path s) with
  | Some f => readable f = true /\ writable f = true
  | None => can_create (disk s) (discovered_file (config_path s)) = true
  end.

(** A meter_id that is the decimal text of an integer, as [str] gives it. *)
Definition canonical_id (k : pyval) : Prop :=
  exists z, k = VStr (Str.of_int z).

(** A text that begins like a decimal integer. *)
Definition starts_numeric (s : string) : bool :=
  match s with
  | String c _ =>
      Ascii.eqb c "-" || match Str.digit_val c with Some _ => true | None => false end
  | EmptyString => false
  end.

(** The ids a pass adds: the text keys that are not among [existing]. *)
Fixpoint added_ids (items : list (pyval * pyval)) (existing : list string) : list string :=
  match items with
  | [] => []
  | (VStr s, _) :: r =>
      if str_in s existing then added_ids r existing else s :: added_ids r existing
  | _ :: r => added_ids r existing
  end.

(** The ids of the meters of a configuration document, as texts. *)
Definition meter_ids (config : pyval) : exc (list string) :=
  exc_bind (existing_meters config) (fun ec => Ok ec.1).

(** A path stem in which no dot is followed by a y. *)
Definition plain_stem (s : string) : Prop := Str.contains ".y" s = false.

(** A consumption the classifier can compare: absent, zero or empty, or
    a number. *)
Definition comparable (c : pyval) : bool :=
  negb (Py.truthy c) || match Py.as_int c with Some _ => true | None => false end.

(** The protocols whose class depends on the consumption. *)
Definition metered_by_consumption (protocol : string) : bool :=
  str_in protocol ["scm"; "scm+"; "r900"; "r900bcd"].

(** A configuration document that is neither [None] nor a mapping. *)
Definition not_mapping (config : pyval) : Prop :=
  match config with
  | VNone | VDict _ => False
  | _ => True
  end.

(** The configuration lists no meter: [meters] is absent or falsy, and
    line 179 puts a new, empty list there. *)
Definition no_meters (d : list (pyval * pyval)) : Prop :=
  match Py.dict_get (VStr "meters") d with
  | Some m => Py.truthy m = false
  | None => True
  end.

(** A codec for examples that reads the next-line character U+0085 (in
    UTF-8 the bytes 194 and 133) back as a space, as PyYAML does under
    [allow_unicode=True]: the character is written as it is, and to the
    reader it is a line break inside a scalar, which is folded.  Keys
    that become equal are one key afterwards, the later value kept. *)
Module Folding.
Definition next_line : string :=
  String (ascii_of_nat 194) (String (ascii_of_nat 133) EmptyString).
Definition fold (s : string) : string := Str.replace next_line " " s.
Fixpoint fold_doc (v : pyval) : pyval :=
  match v with
  | VStr s => VStr (fold s)
  | VList l => VList (map fold_doc l)
  | VDict d =>
      VDict ((fix go (d acc : list (pyval * pyval)) : list (pyval * pyval) :=
                match d with
                | [] => acc
                | (k, x) :: r => go r (Py.dict_set (fold_doc k) (fold_doc x) acc)
                end) d [])
  | _ => v
  end.
Definition dump (v : pyval) : pyval := v.
Definition load (b : pyval) : exc pyval := Ok (fold_doc b).
End Folding.

(** A codec for examples in which a file may not parse. *)
Module Garbled.
Definition dump (v : pyval) : option pyval := Some v.
Definition load (b : option pyval) : exc pyval :=
  match b with Some v => Ok v | None => Raise YAMLError end.
Definition with_file (p : string) (b : option pyval) : filesystem (option pyval) :=
  Filesystem {[ p := File true true b ]} (fun _ => true).
End Garbled.

(** * Properties *)

(** ** The model on the examples of the documentation *)

Example lower_scm : Str.lower "SCM+" = "scm+".
Proof. reflexivity. Qed.

Example replace_yaml :
  Str.replace ".yaml" "_discovered.yaml" "/config/rtlamr2mqtt.yaml"
  = "/config/rtlamr2mqtt_discovered.yaml".
Proof. reflexivity. Qed.

Example to_int_examples :
  Str.to_int "12345" = Some 12345 /\ Str.to_int " 012 " = Some 12 /\
  Str.to_int "-7" = Some (-7) /\ Str.to_int "1_000" = Some 1000 /\
  Str.to_int "abc" = None /\ Str.to_int "" = None /\ Str.to_int "1__0" = None /\
  Str.to_int "+ 1" = None.
Proof. repeat split; reflexivity. Qed.

(** [int] skips tab to carriage return and the space, not the
    separators 28 to 31: a meter_id that holds one gets no defaults. *)
Example to_int_blanks :
  Str.to_int (String (ascii_of_nat 9) (String (ascii_of_nat 11) "12")) = Some 12 /\
  Str.to_int (String (ascii_of_nat 28) "12") = None /\
  Str.to_int ("12" +:+ String (ascii_of_nat 31) "") = None /\
  get_smart_defaults (VStr (String (ascii_of_nat 28) "12")) (VStr "scm") (VStr "gas")
  = Raise ValueError.
Proof. repeat split; reflexivity. Qed.

Example of_int_examples :
  Str.of_int 12345 = "12345" /\ Str.of_int 0 = "0" /\ Str.of_int (-12) = "-12".
Proof. repeat split; reflexivity. Qed.

Example str_examples :
  Py.str (VList [VInt 1; VStr "a"; VDict [(VStr "k", VNone)]]) = "[1, 'a', {'k': None}]"
  /\ Py.str (VStr "scm") = "scm" /\ Py.str (VBool true) = "True".
Proof. repeat split; reflexivity. Qed.

Example guess_examples :
  guess_meter_type (VStr "scm") (VInt 150000) = Ok "water" /\
  guess_meter_type (VStr "scm") (VInt 50000) = Ok "gas" /\
  guess_meter_type (VStr "scm") VNone = Ok "gas" /\
  guess_meter_type (VStr "r900bcd") (VInt 60000) = Ok "water" /\
  guess_meter_type (VStr "r900bcd") (VInt 10000) = Ok "gas" /\
  guess_meter_type (VStr "NetIDM") (VInt 999999) = Ok "energy" /\
  guess_meter_type (VInt 123) (VInt 100) = Ok "energy".
Proof. repeat split; reflexivity. Qed.

(** The end-to-end example: one discovered meter, an empty meter list. *)
Example merge_end_to_end :
  let entry := new_entry "scm" "gas" (VInt 5000) in
  let d := Plain.with_file "config.yaml" (VDict [(VStr "meters", VList [])]) Plain.no_files in
  let s := State "config.yaml" 25 false (VDict [(VStr "10", entry)]) d in
  content <$> files (disk (state_of (update_config_with_discovered_meters Plain.dump Plain.load s)))
                !! "config.yaml"
  = Some (VDict [(VStr "meters", VList [VDict
       [ (VStr "id", VInt 10); (VStr "protocol", VStr "scm");
         (VStr "name", VStr "meter_10"); (VStr "device_class", VStr "gas");
         (VStr "state_class", VStr "total_increasing");
         (VStr "format", VStr "######.##");
         (VStr "unit_of_measurement", VStr "ftÂ³") ]])]).
Proof. vm_compute. reflexivity. Qed.

(** ** The classifier *)

Lemma str_in_In s l : str_in s l = true <-> In s l.
Proof.
  unfold str_in. rewrite existsb_exists. split.
  - intros (x & Hx & E). apply String.eqb_eq in E. now subst.
  - intros H. exists s. split; [assumption | apply String.eqb_refl].
Qed.

Lemma str_in_pair s a b :
  str_in s [a; b] = if decide (s = a \/ s = b) then true else false.
Proof.
  destruct (decide _) as [H | H].
  - apply str_in_In. simpl. intuition.
  - destruct (str_in s [a; b]) eqn:E; [| reflexivity].
    apply str_in_In in E. simpl in E. exfalso. apply H. intuition.
Qed.

Lemma and_gt_exceeds c n : 0 <= n -> and_gt (optional_int c) n = Ok (exceeds c n).
Proof.
  intros Hn. destruct c as [z |]; [| reflexivity].
  unfold and_gt, Py.gt. simpl.
  destruct (Z.eqb_spec z 0) as [-> | Hz]; simpl; [| reflexivity].
  f_equal. symmetry. apply Z.ltb_ge. exact Hn.
Qed.

Lemma protocol_normalised p :
  (if Py.truthy (VStr p) then Str.lower (Py.str (VStr p)) else "") = Str.lower p.
Proof. destruct p; reflexivity. Qed.

(** C3: on a protocol string and an optional integer consumption,
    [guess_meter_type] lower-cases the protocol and answers as the policy
    says: energy for idm and netidm whatever the consumption; for scm and
    scm+, water above 100000 and gas otherwise (gas when the consumption
    is absent); for r900 and r900bcd, water above 50000 and gas otherwise;
    energy for any other protocol, the empty one included. *)
Theorem guess_meter_type_policy (protocol : string) (consumption : option Z) :
  guess_meter_type (VStr protocol) (optional_int consumption)
  = Ok (device_class_name (classify protocol consumption)).
Proof.
  unfold guess_meter_type, classify.
  rewrite protocol_normalised, !str_in_pair, !and_gt_exceeds by lia.
  repeat destruct (decide _); try reflexivity;
    simpl; destruct (exceeds consumption _); reflexivity.
Qed.

(** ** Dictionaries *)

Lemma dict_mem_get k d : Py.dict_mem k d = true <-> exists v, Py.dict_get k d = Some v.
Proof.
  unfold Py.dict_mem. destruct (Py.dict_get k d); split; eauto; try discriminate.
  intros [v Hv]. discriminate.
Qed.

Lemma dict_mem_false k d : Py.dict_mem k d = false <-> Py.dict_get k d = None.
Proof.
  unfold Py.dict_mem. destruct (Py.dict_get k d); split; congruence.
Qed.

Lemma dict_get_app k d1 d2 :
  Py.dict_get k (d1 ++ d2) =
  match Py.dict_get k d1 with Some v => Some v | None => Py.dict_get k d2 end.
Proof.
  induction d1 as [| [k' v'] d1 IH]; simpl; [reflexivity |].
  destruct (Py.scalar_eqb k k'); [reflexivity | exact IH].
Qed.

Lemma dict_set_fresh k v d :
  Py.dict_get k d = None -> Py.dict_set k v d = (d ++ [(k, v)])%list.
Proof.
  induction d as [| [k' v'] d IH]; simpl; [reflexivity |].
  destruct (Py.scalar_eqb k k'); [discriminate |].
  intros H. now rewrite IH.
Qed.

Lemma scalar_eqb_hashable a b : Py.scalar_eqb a b = true -> Py.hashable a = true.
Proof. destruct a, b; simpl; congruence. Qed.

(** ** Recording an observation *)

Ltac run_m :=
  unfold bind, get, lift, ret, when, modify, try_except, if_logger, emit,
    state_of, result_of, log_of; simpl.

Lemma add_meter_present {bytes : Type} (s : state bytes)
    (meter_id protocol consumption : pyval) :
  Py.contains meter_id (discovered_meters s) = Ok true ->
  add_meter meter_id protocol consumption s = (Ok tt, s, []).
Proof.
  intros H. unfold add_meter. run_m. rewrite H. reflexivity.
Qed.

(** C7: a record call whose meter_id is already in the catalog returns
    without touching anything, whatever protocol and consumption it is
    given: the entry, and the whole catalog, stay as they were. *)
Theorem add_meter_present_unchanged {bytes : Type} (s : state bytes)
    (meter_id protocol consumption : pyval) :
  Py.contains meter_id (discovered_meters s) = Ok true ->
  add_meter meter_id protocol consumption s = (Ok tt, s, [])
  /\ discovered_meters (state_of (add_meter meter_id protocol consumption s))
     = discovered_meters s.
Proof.
  intros H. rewrite (add_meter_present s _ _ _ H). split; reflexivity.
Qed.

Lemma add_meter_present_unchanged_witness :
  let entry := new_entry "scm" "gas" (VInt 5000) in
  let s := State "config.yaml" 25 true (VDict [(VStr "10", entry)]) Plain.no_files in
  Py.contains (VStr "10") (discovered_meters s) = Ok true /\
  add_meter (VStr "10") (VStr "idm") (VInt 999999) s = (Ok tt, s, []).
Proof.
  intros entry s. split; [reflexivity |].
  apply (add_meter_present_unchanged s (VStr "10") (VStr "idm") (VInt 999999)).
  reflexivity.
Defined.

Lemma add_meter_new {bytes : Type} (s : state bytes) d meter_id protocol consumption dc :
  discovered_meters s = VDict d ->
  Py.hashable meter_id = true ->
  Py.dict_get meter_id d = None ->
  Z.of_nat (length d) < max_meters s ->
  guess_meter_type (VStr (protocol_text protocol)) consumption = Ok dc ->
  add_meter meter_id protocol consumption s
  = (Ok tt,
     set_discovered_meters
       (VDict (d ++ [(meter_id, new_entry (protocol_text protocol) dc consumption)])) s,
     if logger s
     then [LogRecord INFO "Discovered new meter: ID=%s, Protocol=%s, Type=%s"
             [AVal meter_id; AVal (VStr (protocol_text protocol)); AVal (VStr dc)]]
     else []).
Proof.
  intros Hd Hh Hg Hlt Hdc. unfold add_meter. run_m.
  fold (protocol_text protocol).
  rewrite Hd. simpl. rewrite Hh. apply dict_mem_false in Hg. rewrite Hg. simpl.
  apply Z.ltb_lt in Hlt. rewrite Hlt. rewrite Hdc. simpl.
  apply dict_mem_false in Hg. rewrite (dict_set_fresh _ _ _ Hg).
  unfold new_entry. destruct (logger s); reflexivity.
Qed.

(** C8, as stated, fails: the integer 12345 and the string "12345" have
    the same string form, and recording one after the other leaves two
    entries, the first under the integer itself. *)
Lemma add_meter_int_then_str_two_entries :
  let s0 := State "config.yaml" 25 false (VDict []) Plain.no_files in
  let s1 := state_of (add_meter (VInt 12345) (VStr "scm") VNone s0) in
  let s2 := state_of (add_meter (VStr "12345") (VStr "scm") VNone s1) in
  Py.str (VInt 12345) = Py.str (VStr "12345") /\
  discovered_meters s2
  = VDict [ (VInt 12345, new_entry "scm" "gas" VNone);
            (VStr "12345", new_entry "scm" "gas" VNone) ].
Proof. split; reflexivity. Qed.

(** C8, amended: a record call that adds a meter stores it under the
    meter_id as given, with no conversion; a later call hits that entry
    when its meter_id is equal ([==]) to the stored key. *)
Theorem add_meter_key_as_given {bytes : Type} (s : state bytes) d
    (meter_id protocol consumption : pyval) dc :
  discovered_meters s = VDict d ->
  Py.hashable meter_id = true ->
  Py.dict_get meter_id d = None ->
  Z.of_nat (length d) < max_meters s ->
  guess_meter_type (VStr (protocol_text protocol)) consumption = Ok dc ->
  let s1 := state_of (add_meter meter_id protocol consumption s) in
  discovered_meters s1
  = VDict (d ++ [(meter_id, new_entry (protocol_text protocol) dc consumption)]) /\
  forall other protocol' consumption',
    Py.scalar_eqb other meter_id = true ->
    add_meter other protocol' consumption' s1 = (Ok tt, s1, []).
Proof.
  intros Hd Hh Hg Hlt Hdc s1.
  assert (E : discovered_meters s1
    = VDict (d ++ [(meter_id, new_entry (protocol_text protocol) dc consumption)])).
  { unfold s1. rewrite (add_meter_new s d _ _ _ dc) by assumption. reflexivity. }
  split; [exact E |].
  intros other p c Heq. apply add_meter_present.
  rewrite E. simpl. rewrite (scalar_eqb_hashable _ _ Heq).
  f_equal. apply dict_mem_get.
  rewrite dict_get_app. destruct (Py.dict_get other d); [eauto |].
  simpl. rewrite Heq. eauto.
Qed.

Lemma add_meter_key_as_given_witness :
  let s := State "config.yaml" 25 false (VDict []) Plain.no_files in
  let s1 := state_of (add_meter (VInt 12345) (VStr "SCM") (VInt 7) s) in
  discovered_meters s1 = VDict [(VInt 12345, new_entry "scm" "gas" (VInt 7))] /\
  forall other protocol' consumption',
    Py.scalar_eqb other (VInt 12345) = true ->
    add_meter other protocol' consumption' s1 = (Ok tt, s1, []).
Proof.
  intros s.
  apply (add_meter_key_as_given s [] (VInt 12345) (VStr "SCM") (VInt 7) "gas");
    reflexivity.
Defined.

(** ** The path of the catalog file *)

Lemma replace_from_cons old new c r :
  Str.replace_from old new (String c r) O
  = if String.prefix old (String c r)
    then new +:+ Str.replace_from old new r (String.length old - 1)
    else String c (Str.replace_from old new r O).
Proof. reflexivity. Qed.

Lemma prefix_cons a s1 b s2 :
  String.prefix (String a s1) (String b s2)
  = if ascii_dec a b then String.prefix s1 s2 else false.
Proof. reflexivity. Qed.

Lemma append_cons c s t : String c s +:+ t = String c (s +:+ t).
Proof. reflexivity. Qed.

Lemma prefix_y_longer old u :
  String.prefix "y" u = false -> String.prefix (String "y" old) u = false.
Proof.
  destruct u as [| a u]; [reflexivity |]. rewrite !prefix_cons.
  destruct (ascii_dec "y" a); [| reflexivity]. now destruct u.
Qed.

Lemma prefix_y_append t rest :
  String.prefix "y" t = false -> String.prefix "y" rest = false ->
  String.prefix "y" (t +:+ rest) = false.
Proof.
  destruct t as [| a t]; [now intros _ |]. rewrite append_cons, !prefix_cons.
  destruct (ascii_dec "y" a); [| reflexivity]. now destruct t.
Qed.

Lemma contains_cons x c s :
  Str.contains x (String c s) = String.prefix x (String c s) || Str.contains x s.
Proof. reflexivity. Qed.

Lemma replace_from_plain_stem old new stem rest :
  plain_stem stem ->
  String.prefix "y" rest = false ->
  Str.replace_from (String "." (String "y" old)) new (stem +:+ rest) O
  = stem +:+ Str.replace_from (String "." (String "y" old)) new rest O.
Proof.
  unfold plain_stem. intros H Hrest.
  induction stem as [| c stem IH]; [reflexivity |].
  rewrite contains_cons in H. apply orb_false_elim in H as [Hc Hs].
  rewrite !append_cons, replace_from_cons, prefix_cons.
  destruct (ascii_dec "." c) as [E | _].
  - subst c. rewrite prefix_cons in Hc.
    destruct (ascii_dec "." ".") as [_ | N]; [| contradiction].
    rewrite prefix_y_longer by now apply prefix_y_append.
    now rewrite IH.
  - now rewrite IH.
Qed.

Lemma discovered_file_plain_stem stem ext :
  plain_stem stem -> ext = ".yaml" \/ ext = ".yml" ->
  discovered_file (stem +:+ ext) = stem +:+ "_discovered.yaml".
Proof.
  intros H [-> | ->]; unfold discovered_file, Str.replace.
  - rewrite (replace_from_plain_stem "aml" _ stem ".yaml" H eq_refl).
    change (Str.replace_from ".yaml" "_discovered.yaml" ".yaml" 0)
      with "_discovered.yaml".
    rewrite (replace_from_plain_stem "ml" _ stem "_discovered.yaml" H eq_refl).
    reflexivity.
  - rewrite (replace_from_plain_stem "aml" _ stem ".yml" H eq_refl).
    change (Str.replace_from ".yaml" "_discovered.yaml" ".yml" 0) with ".yml".
    rewrite (replace_from_plain_stem "ml" _ stem ".yml" H eq_refl).
    reflexivity.
Qed.

Lemma append_inj_l s1 s2 t : s1 +:+ t = s2 +:+ t -> s1 = s2.
Proof.
  intros H.
  assert (L : forall a b, String.length (a +:+ b) = (String.length a + String.length b)%nat).
  { induction a; intros; simpl; [reflexivity | now rewrite IHa]. }
  revert s2 H. induction s1 as [| c s1 IH]; intros [| c2 s2] H.
  - reflexivity.
  - apply (f_equal String.length) in H. rewrite !L in H. simpl in H. lia.
  - apply (f_equal String.length) in H. rewrite !L in H. simpl in H. lia.
  - rewrite !append_cons in H. injection H as -> H. f_equal. now apply IH.
Qed.

(** C6, as stated, fails: two configuration paths that differ only in
    their extension get the same catalog path. *)
Lemma discovered_file_collision :
  "config.yaml" <> "config.yml" /\
  discovered_file "config.yaml" = discovered_file "config.yml".
Proof. split; [discriminate | reflexivity]. Qed.

(** A configuration path with neither extension is its own catalog path. *)
Example discovered_file_other_extension :
  discovered_file "/config/rtlamr2mqtt.json" = "/config/rtlamr2mqtt.json".
Proof. reflexivity. Qed.

(** C6, amended: the catalog path is a function of the configuration
    path alone; for a path made of a stem in which no dot is followed by
    a y, and the extension .yaml or .yml, it is the stem followed by
    _discovered.yaml, whichever of the two extensions the path had, so
    among such paths two get the same catalog path exactly when they
    have the same stem. *)
Theorem discovered_file_derivation (stem1 stem2 ext1 ext2 : string) :
  plain_stem stem1 -> plain_stem stem2 ->
  ext1 = ".yaml" \/ ext1 = ".yml" ->
  ext2 = ".yaml" \/ ext2 = ".yml" ->
  discovered_file (stem1 +:+ ext1) = stem1 +:+ "_discovered.yaml" /\
  (discovered_file (stem1 +:+ ext1) = discovered_file (stem2 +:+ ext2) <-> stem1 = stem2).
Proof.
  intros H1 H2 E1 E2.
  rewrite (discovered_file_plain_stem stem1 ext1 H1 E1).
  rewrite (discovered_file_plain_stem stem2 ext2 H2 E2).
  split; [reflexivity |]. split.
  - apply append_inj_l.
  - now intros ->.
Qed.

Lemma discovered_file_derivation_witness :
  plain_stem "/home/pi/.config/rtlamr2mqtt" /\
  discovered_file "/home/pi/.config/rtlamr2mqtt.yml"
  = "/home/pi/.config/rtlamr2mqtt_discovered.yaml" /\
  (discovered_file "/home/pi/.config/rtlamr2mqtt.yml"
   = discovered_file "/home/pi/.config/rtlamr2mqtt.yaml"
   <-> "/home/pi/.config/rtlamr2mqtt" = "/home/pi/.config/rtlamr2mqtt").
Proof.
  split; [reflexivity |].
  apply (discovered_file_derivation "/home/pi/.config/rtlamr2mqtt"
           "/home/pi/.config/rtlamr2mqtt" ".yml" ".yaml");
    first [reflexivity | now left | now right].
Defined.

(** ** Merging into the primary configuration *)

Section Merge.

Context {bytes : Type}.
Variable safe_dump : pyval -> bytes.
Variable safe_load : bytes -> exc pyval.

Abbreviation merge := (update_config_with_discovered_meters safe_dump safe_load).

(** The method, by cases on what the pass computes. *)
Lemma merge_run (s : state bytes) :
  merge s =
  if negb (Py.truthy (discovered_meters s)) then (Ok tt, s, [])
  else match merge_plan safe_load s with
       | Raise e => (Ok tt, s, merge_failed s e)
       | Ok (config, added) =>
           if 0 <? added then
             match write_file (disk s) (config_path s) (safe_dump config) with
             | Ok d => (Ok tt, set_disk d s, merge_added s added)
             | Raise e => (Ok tt, s, merge_failed s e)
             end
           else (Ok tt, s, [])
       end.
Proof.
  unfold update_config_with_discovered_meters, merge_plan, merge_failed, merge_added.
  run_m.
  destruct (Py.truthy (discovered_meters s)); simpl; [| reflexivity].
  destruct (read_file (disk s) (config_path s)) as [b | e]; simpl;
    [| destruct (logger s); reflexivity].
  destruct (safe_load b) as [config | e]; simpl;
    [| destruct (logger s); reflexivity].
  destruct (existing_meters config) as [ec | e]; simpl;
    [| destruct (logger s); reflexivity].
  destruct (Py.items (discovered_meters s)) as [items | e]; simpl;
    [| destruct (logger s); reflexivity].
  destruct (add_discovered items ec.1 (max_meters s) ec.2 0) as [[config' added] | e];
    simpl; [| destruct (logger s); reflexivity].
  destruct (0 <? added); simpl; [| reflexivity].
  destruct (write_file (disk s) (config_path s) (safe_dump config')) as [d | e]; simpl;
    destruct (logger s); reflexivity.
Qed.

Lemma merge_returns (s : state bytes) : result_of (merge s) = Ok tt.
Proof.
  rewrite merge_run. destruct (negb _); [reflexivity |].
  destruct (merge_plan safe_load s) as [[config added] | e]; [| reflexivity].
  destruct (0 <? added); [| reflexivity].
  destruct (write_file _ _ _); reflexivity.
Qed.

Lemma merge_aborts (s : state bytes) e :
  Py.truthy (discovered_meters s) = true ->
  merge_plan safe_load s = Raise e ->
  merge s = (Ok tt, s, merge_failed s e).
Proof.
  intros Ht Hp. rewrite merge_run, Ht, Hp. reflexivity.
Qed.

Lemma read_file_unreadable (d : filesystem bytes) p :
  isfile_readable d p = false -> read_file d p = Raise OSError.
Proof.
  unfold isfile_readable, read_file.
  destruct (files d !! p) as [f |]; [| reflexivity].
  now intros ->.
Qed.

(** C4, amended: with a non-empty catalog, a primary configuration file
    that is absent or unreadable aborts the pass: the error is caught
    and logged, nothing is added and nothing is written.  It is a file
    that reads as the empty document that counts as a configuration with
    an empty meter list, to which the catalog's entries are added. *)
Theorem merge_config_unreadable (s : state bytes) :
  Py.truthy (discovered_meters s) = true ->
  (isfile_readable (disk s) (config_path s) = false ->
   merge s = (Ok tt, s, merge_failed s OSError)) /\
  (forall b, read_file (disk s) (config_path s) = Ok b -> safe_load b = Ok VNone ->
   merge_plan safe_load s
   = exc_bind (Py.items (discovered_meters s)) (fun items =>
       add_discovered items [] (max_meters s) (VDict [(VStr "meters", VList [])]) 0)).
Proof.
  intros Ht. split.
  - intros Hr. apply merge_aborts; [exact Ht |].
    unfold merge_plan. now rewrite (read_file_unreadable _ _ Hr).
  - intros b Hb Hl. unfold merge_plan. rewrite Hb. simpl. rewrite Hl. reflexivity.
Qed.

Lemma str_ids_lacking ms :
  (exists m, In m ms /\ lacks_id m) -> raised (str_ids ms) = true.
Proof.
  unfold lacks_id. induction ms as [| m0 ms IH]; intros (m & Hin & Hm); [destruct Hin |].
  simpl. destruct (Py.getitem m0 (VStr "id")) as [i |] eqn:E; [| reflexivity].
  destruct Hin as [-> | Hin]; [rewrite E in Hm; discriminate |].
  simpl. specialize (IH (ex_intro _ m (conj Hin Hm))).
  destruct (str_ids ms); [discriminate | reflexivity].
Qed.

(** C10: with a non-empty catalog, a primary configuration whose meters
    list has an element with no [id] to read makes the pass add nothing,
    for any entry of the catalog: the configuration file is not written,
    the catalog is unchanged, and the failure is caught (the call
    returns) and logged as an error on the logger. *)
Theorem merge_malformed_entry_aborts (s : state bytes) b config ms :
  Py.truthy (discovered_meters s) = true ->
  read_file (disk s) (config_path s) = Ok b ->
  safe_load b = Ok config ->
  Py.getitem config (VStr "meters") = Ok (VList ms) ->
  (exists m, In m ms /\ lacks_id m) ->
  exists e, merge s = (Ok tt, s, merge_failed s e).
Proof.
  intros Ht Hb Hl Hm Hbad.
  assert (Hp : raised (merge_plan safe_load s) = true).
  { unfold merge_plan. rewrite Hb. simpl. rewrite Hl. simpl.
    destruct config as [| | | | | d]; try discriminate.
    unfold existing_meters. simpl in *.
    destruct (Py.dict_get (VStr "meters") d) as [v |] eqn:E; [| discriminate].
    injection Hm as ->. unfold Py.dict_mem. rewrite E. simpl.
    apply str_ids_lacking in Hbad.
    destruct ms as [| m0 ms]; [discriminate |].
    destruct (str_ids (m0 :: ms)); [discriminate | reflexivity]. }
  destruct (merge_plan safe_load s) as [? | e] eqn:E; [discriminate |].
  exists e. now apply merge_aborts.
Qed.

Lemma add_discovered_not_coercible items existing max config added :
  (exists k info, In (k, info) items /\ raised (Py.to_int k) = true /\
                  Py.in_str_set k existing = Ok false) ->
  added + Z.of_nat (length items) <= max ->
  raised (add_discovered items existing max config added) = true.
Proof.
  revert config added.
  induction items as [| [k0 info0] items IH]; intros config added (k & info & Hin & Hk & Hex) Hle.
  { destruct Hin. }
  cbn [add_discovered]. cbn [length] in Hle.
  destruct Hin as [Heq | Hin].
  - injection Heq as -> ->. rewrite Hex. simpl.
    replace (added <? max) with true by (symmetry; apply Z.ltb_lt; lia).
    destruct (Py.getitem info (VStr "protocol")); [| reflexivity]. simpl.
    destruct (Py.getitem info (VStr "device_class")); [| reflexivity]. simpl.
    unfold get_smart_defaults. destruct (Py.to_int k); [discriminate | reflexivity].
  - assert (Hrest : exists k info, In (k, info) items /\ raised (Py.to_int k) = true /\
                      Py.in_str_set k existing = Ok false) by eauto.
    destruct (Py.in_str_set k0 existing) as [present |]; [| reflexivity]. simpl.
    destruct (negb present && (added <? max)).
    + destruct (Py.getitem info0 (VStr "protocol")); [| reflexivity]. simpl.
      destruct (Py.getitem info0 (VStr "device_class")); [| reflexivity]. simpl.
      destruct (get_smart_defaults k0 a a0); [| reflexivity]. simpl.
      destruct (append_meter config a1); [| reflexivity]. simpl.
      apply IH; [exact Hrest | lia].
    + apply IH; [exact Hrest | lia].
Qed.

(** C5, amended: merge contains every exception, the one raised for a
    meter_id that is not integer-coercible like the ones of the file
    system and of the parser: the call always returns; and when a pass
    that could add every entry of the catalog comes to such a meter_id,
    not among the ids of the configuration, nothing is written and the
    error is logged. *)
Theorem merge_contains_invalid_meter_id (s : state bytes) :
  result_of (merge s) = Ok tt /\
  (forall items b config ids config' k info,
     discovered_meters s = VDict items ->
     read_file (disk s) (config_path s) = Ok b ->
     safe_load b = Ok config ->
     existing_meters config = Ok (ids, config') ->
     In (k, info) items ->
     raised (Py.to_int k) = true ->
     Py.in_str_set k ids = Ok false ->
     Z.of_nat (length items) <= max_meters s ->
     exists e, merge s = (Ok tt, s, merge_failed s e)).
Proof.
  split; [apply merge_returns |].
  intros items b config ids config' k info Hd Hb Hl Hex Hin Hk Hnot Hle.
  assert (Hp : raised (merge_plan safe_load s) = true).
  { unfold merge_plan. rewrite Hb. simpl. rewrite Hl. simpl. rewrite Hex. simpl.
    rewrite Hd. simpl. apply add_discovered_not_coercible; [eauto 6 | lia]. }
  destruct (merge_plan safe_load s) as [? | e] eqn:E; [discriminate |].
  exists e. apply merge_aborts; [| exact E].
  rewrite Hd. destruct items; [destruct Hin | reflexivity].
Qed.

End Merge.

(** C4, as stated, fails: with no configuration file, a catalog of one
    meter is not merged; no file is created and the error is logged. *)
Lemma merge_absent_config_adds_nothing :
  let s := State "config.yaml" 25 true
             (VDict [(VStr "10", new_entry "scm" "gas" (VInt 5000))]) Plain.no_files in
  files (disk s) !! "config.yaml" = None /\
  update_config_with_discovered_meters Plain.dump Plain.load s
  = (Ok tt, s, merge_failed s OSError).
Proof. split; reflexivity. Qed.

Lemma merge_config_unreadable_witness :
  let s := State "config.yaml" 25 true
             (VDict [(VStr "10", new_entry "scm" "gas" (VInt 5000))]) Plain.no_files in
  Py.truthy (discovered_meters s) = true /\
  isfile_readable (disk s) (config_path s) = false /\
  update_config_with_discovered_meters Plain.dump Plain.load s
  = (Ok tt, s, merge_failed s OSError).
Proof.
  intros s. split; [reflexivity |]. split; [reflexivity |].
  apply (merge_config_unreadable Plain.dump Plain.load s); reflexivity.
Defined.

(** C5, as stated, fails: a meter_id that is not integer-coercible
    raises nothing to the caller of merge; the call returns, and the
    error goes to the log like any other. *)
Lemma merge_invalid_meter_id_not_raised :
  let d := Plain.with_file "config.yaml" (VDict [(VStr "meters", VList [])]) Plain.no_files in
  let s := State "config.yaml" 25 true
             (VDict [(VStr "abc", new_entry "scm" "gas" VNone)]) d in
  Py.to_int (VStr "abc") = Raise ValueError /\
  update_config_with_discovered_meters Plain.dump Plain.load s
  = (Ok tt, s, merge_failed s ValueError).
Proof. split; reflexivity. Qed.

Lemma merge_contains_invalid_meter_id_witness :
  let d := Plain.with_file "config.yaml" (VDict [(VStr "meters", VList [])]) Plain.no_files in
  let s := State "config.yaml" 25 true
             (VDict [(VStr "abc", new_entry "scm" "gas" VNone)]) d in
  exists e, update_config_with_discovered_meters Plain.dump Plain.load s
            = (Ok tt, s, merge_failed s e).
Proof.
  intros d s.
  apply (proj2 (merge_contains_invalid_meter_id Plain.dump Plain.load s)
           [(VStr "abc", new_entry "scm" "gas" VNone)]
           (VDict [(VStr "meters", VList [])]) (VDict [(VStr "meters", VList [])])
           [] (VDict [(VStr "meters", VList [])])
           (VStr "abc") (new_entry "scm" "gas" VNone));
    try reflexivity.
  - now left.
  - simpl. lia.
Defined.

Lemma merge_malformed_entry_aborts_witness :
  let config := VDict [(VStr "meters",
                  VList [VDict [(VStr "id", VInt 7)]; VDict [(VStr "name", VStr "x")]])] in
  let d := Plain.with_file "config.yaml" config Plain.no_files in
  let s := State "config.yaml" 25 true
             (VDict [(VStr "10", new_entry "scm" "gas" VNone)]) d in
  lacks_id (VDict [(VStr "name", VStr "x")]) /\
  exists e, update_config_with_discovered_meters Plain.dump Plain.load s
            = (Ok tt, s, merge_failed s e).
Proof.
  intros config d s. split; [reflexivity |].
  apply (merge_malformed_entry_aborts Plain.dump Plain.load s config config
           [VDict [(VStr "id", VInt 7)]; VDict [(VStr "name", VStr "x")]]);
    try reflexivity.
  exists (VDict [(VStr "name", VStr "x")]). split; [right; now left | reflexivity].
Defined.

(** ** Documents with the same content *)

Lemma same_doc_refl v : same_doc v v.
Proof.
  induction v as [| b | z | s | l IH | d IH] using pyval_nested_ind; try constructor.
  - induction IH; constructor; assumption.
  - reflexivity.
  - intros k. induction IH as [| [k' v'] d Hv _ IHd]; simpl; [constructor |].
    destruct (Py.scalar_eqb k k'); [constructor; exact Hv | exact IHd].
Qed.

Lemma plain_roundtrip : codec_roundtrip Plain.dump Plain.load.
Proof. intros v. exists v. split; [reflexivity | apply same_doc_refl]. Qed.

Lemma same_doc_dict_inv d v :
  same_doc (VDict d) v ->
  exists d', v = VDict d' /\ length d = length d' /\
             forall k, option_Forall2 same_doc (Py.dict_get k d) (Py.dict_get k d').
Proof. intros H. inversion H; subst. eauto. Qed.

Lemma same_doc_list_inv l v :
  same_doc (VList l) v -> exists l', v = VList l' /\ Forall2 same_doc l l'.
Proof. intros H. inversion H; subst. eauto. Qed.

Lemma same_doc_get d d' k v :
  (forall k, option_Forall2 same_doc (Py.dict_get k d) (Py.dict_get k d')) ->
  Py.dict_get k d = Some v ->
  exists v', Py.dict_get k d' = Some v' /\ same_doc v v'.
Proof.
  intros H Hk. specialize (H k). rewrite Hk in H. inversion H; subst. eauto.
Qed.

(** ** Saving and loading the catalog *)

Section SaveLoad.

Context {bytes : Type}.
Variable safe_dump : pyval -> bytes.
Variable safe_load : bytes -> exc pyval.

Lemma save_writes (s : state bytes) :
  can_save s ->
  files (disk (state_of (save_discovered_meters safe_dump s)))
    !! discovered_file (config_path s)
  = Some (File true true (safe_dump (VDict [(VStr "discovered_meters", discovered_meters s)]))).
Proof.
  unfold can_save, save_discovered_meters. run_m. unfold write_file.
  destruct (files (disk s) !! discovered_file (config_path s)) as [f |] eqn:Hf.
  - intros [Hr Hw]. rewrite Hw, Hr. simpl.
    destruct (logger s); simpl.
    + destruct (Py.len (discovered_meters s)); simpl.
      * apply lookup_insert_eq.
      * destruct (logger s); simpl; apply lookup_insert_eq.
    + apply lookup_insert_eq.
  - intros ->. simpl.
    destruct (logger s); simpl.
    + destruct (Py.len (discovered_meters s)); simpl.
      * apply lookup_insert_eq.
      * destruct (logger s); simpl; apply lookup_insert_eq.
    + apply lookup_insert_eq.
Qed.

Lemma load_reads path max lg (d : filesystem bytes) w b v dd :
  files d !! discovered_file path = Some (File true w b) ->
  safe_load b = Ok (VDict dd) ->
  Py.dict_get (VStr "discovered_meters") dd = Some v ->
  discovered_meters (state_of (init safe_load path max lg d)) = v.
Proof.
  intros Hf Hl Hv.
  assert (Ht : Py.truthy (VDict dd) = true) by (destruct dd; [discriminate | reflexivity]).
  assert (Hc : Py.contains (VStr "discovered_meters") (VDict dd) = Ok true).
  { simpl. unfold Py.dict_mem. now rewrite Hv. }
  assert (Hg : Py.getitem (VDict dd) (VStr "discovered_meters") = Ok v).
  { simpl. now rewrite Hv. }
  unfold init, load_discovered_meters. run_m.
  unfold isfile_readable, read_file. rewrite Hf. simpl. rewrite Hl.
  cbn -[Py.truthy Py.contains Py.getitem]. rewrite Ht, Hc.
  cbn -[Py.truthy Py.contains Py.getitem]. rewrite Hg.
  cbn -[Py.truthy Py.contains Py.getitem].
  destruct lg; simpl; [| reflexivity].
  destruct (Py.len v); reflexivity.
Qed.

(** C9, amended: for a catalog whose document PyYAML reads back as it
    was dumped, and when the catalog file can be written and read,
    saving and then making a new tracker on the same configuration path
    gives that tracker the catalog that was saved: the same keys with
    the same entries. *)
Theorem save_load_roundtrip (s : state bytes) max lg :
  reads_back safe_dump safe_load
    (VDict [(VStr "discovered_meters", discovered_meters s)]) ->
  can_save s ->
  let saved := state_of (save_discovered_meters safe_dump s) in
  let fresh := state_of (init safe_load (config_path s) max lg (disk saved)) in
  same_doc (discovered_meters s) (discovered_meters fresh).
Proof.
  intros Hrt Hs saved fresh.
  pose proof (save_writes s Hs) as Hf. fold saved in Hf.
  destruct Hrt as (data & Hl & Hsame).
  apply same_doc_dict_inv in Hsame as (dd & -> & _ & Hget).
  destruct (same_doc_get _ dd (VStr "discovered_meters") (discovered_meters s) Hget)
    as (v & Hv & Hvs); [reflexivity |].
  unfold fresh. now rewrite (load_reads _ max lg _ _ _ v dd Hf Hl Hv).
Qed.

End SaveLoad.

(** C9, as stated, fails: a meter_id that holds the next-line character
    is read back with a space in its place, so the new tracker has the
    entry under another key and does not know the meter it was saved
    with. *)
Lemma save_load_folds_next_line :
  let meter_id := VStr ("a" +:+ Folding.next_line +:+ "b") in
  let catalog := VDict [(meter_id, new_entry "scm" "gas" VNone)] in
  let s := State "config.yaml" 25 false catalog Plain.no_files in
  let saved := state_of (save_discovered_meters Folding.dump s) in
  let fresh := state_of (init Folding.load "config.yaml" 25 false (disk saved)) in
  discovered_meters fresh = VDict [(VStr "a b", new_entry "scm" "gas" VNone)] /\
  Py.contains meter_id (discovered_meters fresh) = Ok false /\
  ~ same_doc catalog (discovered_meters fresh).
Proof.
  intros meter_id catalog s saved fresh.
  assert (E : discovered_meters fresh = VDict [(VStr "a b", new_entry "scm" "gas" VNone)])
    by reflexivity.
  split; [exact E |]. split; [reflexivity |].
  rewrite E. intros H. apply same_doc_dict_inv in H as (d' & Hd' & _ & Hget).
  injection Hd' as <-. specialize (Hget meter_id). vm_compute in Hget.
  inversion Hget.
Qed.

Lemma save_load_roundtrip_witness :
  let catalog := VDict [ (VStr "10", new_entry "scm" "gas" (VInt 5000));
                         (VInt 11, new_entry "idm" "energy" VNone) ] in
  let s := State "config.yaml" 25 true catalog Plain.no_files in
  let saved := state_of (save_discovered_meters Folding.dump s) in
  let fresh := state_of (init Folding.load "config.yaml" 3 false (disk saved)) in
  reads_back Folding.dump Folding.load (VDict [(VStr "discovered_meters", catalog)]) /\
  can_save s /\ same_doc catalog (discovered_meters fresh).
Proof.
  intros catalog s saved fresh.
  assert (Hrb : reads_back Folding.dump Folding.load
                  (VDict [(VStr "discovered_meters", catalog)])).
  { eexists. split; [reflexivity |]. vm_compute. apply same_doc_refl. }
  split; [exact Hrb |]. split; [reflexivity |].
  exact (save_load_roundtrip Folding.dump Folding.load s 3 false Hrb eq_refl).
Defined.

(** ** Capacity *)

Section Capacity.

Context {bytes : Type}.
Variable safe_dump : pyval -> bytes.
Variable safe_load : bytes -> exc pyval.









Lemma init_loaded_within_capacity path max lg (d : filesystem bytes) w b dd catalog :
  files d !! discovered_file path = Some (File true w b) ->
  safe_load b = Ok (VDict dd) ->
  Py.dict_get (VStr "discovered_meters") dd = Some (VDict catalog) ->
  Z.of_nat (length catalog) <= max ->
  within_capacity (state_of (init safe_load path max lg d)).
Proof.
  intros Hf Hl Hc Hle. exists catalog. split.
  - apply (load_reads safe_load path max lg d w b (VDict catalog) dd Hf Hl Hc).
  - replace (max_meters (state_of (init safe_load path max lg d))) with max; [exact Hle |].
    unfold init, load_discovered_meters. run_m.
    destruct (isfile_readable d (discovered_file path)); [| reflexivity]. simpl.
    destruct (read_file d (discovered_file path)) as [b0 |]; simpl;
      [| destruct lg; reflexivity].
    destruct (safe_load b0) as [data |]; simpl; [| destruct lg; reflexivity].
    destruct (if Py.truthy data then _ else _) as [has |]; simpl;
      [| destruct lg; reflexivity].
    destruct has; simpl; [| reflexivity].
    destruct (Py.getitem data (VStr "discovered_meters")) as [v |]; simpl;
      [| destruct lg; reflexivity].
    destruct lg; simpl; [| reflexivity].
    destruct (Py.len v); reflexivity.
Qed.


End Capacity.

(** C2 fails on the code: construction assigns whatever the catalog file
    holds (lines 110-111) without the test of line 132, here two entries
    into a tracker made to track one. *)
Lemma load_exceeds_capacity :
  let catalog := VDict [ (VStr "1", new_entry "scm" "gas" VNone);
                         (VStr "2", new_entry "scm" "gas" VNone) ] in
  let d := Plain.with_file "config_discovered.yaml"
             (VDict [(VStr "discovered_meters", catalog)]) Plain.no_files in
  let s := state_of (init Plain.load "config.yaml" 1 false d) in
  max_meters s = 1 /\ Py.len (discovered_meters s) = Ok 2.
Proof. split; reflexivity. Qed.

(** The same unchecked load takes a list for a catalog; a record call
    then assigns by position and an element that was loaded is lost. *)
Example load_list_then_record :
  let d := Plain.with_file "config_discovered.yaml"
             (VDict [(VStr "discovered_meters", VList [VInt 5; VInt 6])]) Plain.no_files in
  let s := state_of (init Plain.load "config.yaml" 25 false d) in
  discovered_meters s = VList [VInt 5; VInt 6] /\
  discovered_meters (state_of (add_meter (VInt 0) (VStr "scm") VNone s))
  = VList [new_entry "scm" "gas" VNone; VInt 6].
Proof. split; reflexivity. Qed.


(** ** Decimal texts *)

Ltac digit_value :=
  repeat match goal with
  | |- context [Z.of_nat (nat_of_ascii ?c - 48)] =>
      let v := eval vm_compute in (Z.of_nat (nat_of_ascii c - 48)) in
      change (Z.of_nat (nat_of_ascii c - 48)) with v
  end.

Ltac digit_step :=
  cbn [Str.parse_digits]; simpl Ascii.eqb; cbv iota; simpl Str.digit_val; cbv iota;
  digit_value.

Lemma parse_digits_acc u p :
  Str.parse_digits (NilEmpty.string_of_uint u) (Z.pos p) true
  = Some (Z.pos (Pos.of_uint_acc u p)).
Proof.
  revert p. induction u; intros p; cbn [NilEmpty.string_of_uint Pos.of_uint_acc];
    [reflexivity | ..];
    digit_step; rewrite <- IHu; f_equal; digit_value; lia.
Qed.

Lemma parse_digits_zero u b :
  u <> Decimal.Nil \/ b = true ->
  Str.parse_digits (NilEmpty.string_of_uint u) 0 b = Some (Z.of_N (Pos.of_uint u)).
Proof.
  revert b. induction u; intros b Hb; cbn [NilEmpty.string_of_uint Pos.of_uint];
    [ destruct Hb as [Hb | ->]; [contradiction | reflexivity]
    | digit_step; apply IHu; now right
    | digit_step; apply parse_digits_acc .. ].
Qed.

Lemma rstrip_uint u :
  Str.rstrip (NilEmpty.string_of_uint u) = NilEmpty.string_of_uint u.
Proof.
  induction u; cbn [NilEmpty.string_of_uint Str.rstrip]; [reflexivity | ..];
    rewrite IHu; destruct (NilEmpty.string_of_uint u); reflexivity.
Qed.

Lemma strip_uint u :
  Str.strip (NilEmpty.string_of_uint u) = NilEmpty.string_of_uint u.
Proof.
  unfold Str.strip.
  replace (Str.lstrip (NilEmpty.string_of_uint u)) with (NilEmpty.string_of_uint u)
    by (destruct u; reflexivity).
  apply rstrip_uint.
Qed.

Lemma to_int_uint u :
  u <> Decimal.Nil ->
  Str.to_int (NilEmpty.string_of_uint u) = Some (Z.of_N (Pos.of_uint u)).
Proof.
  intros Hu. unfold Str.to_int. rewrite strip_uint.
  rewrite <- (parse_digits_zero u false) by now left.
  destruct u; [contradiction | ..]; reflexivity.
Qed.

Lemma to_int_neg_uint u :
  u <> Decimal.Nil ->
  Str.to_int (String "-" (NilEmpty.string_of_uint u)) = Some (- Z.of_N (Pos.of_uint u)).
Proof.
  intros Hu. unfold Str.to_int, Str.strip.
  change (Str.lstrip (String "-" (NilEmpty.string_of_uint u)))
    with (String "-" (NilEmpty.string_of_uint u)).
  cbn [Str.rstrip]. rewrite rstrip_uint.
  replace (match NilEmpty.string_of_uint u with
           | "" => if Str.is_space "-" then "" else "-"
           | String a s => String "-" (String a s)
           end) with (String "-" (NilEmpty.string_of_uint u))
    by (destruct (NilEmpty.string_of_uint u); reflexivity).
  cbv iota. rewrite (parse_digits_zero u false) by now left. reflexivity.
Qed.

(** [int(str(z))] is [z]. *)
Lemma to_int_of_int z : Str.to_int (Str.of_int z) = Some z.
Proof.
  unfold Str.of_int. destruct z as [| p | p]; [reflexivity | ..];
    cbn [Z.to_int NilZero.string_of_int]; unfold NilZero.string_of_uint;
    pose proof (DecimalPos.Unsigned.to_uint_nonnil p) as Hn;
    pose proof (DecimalPos.Unsigned.of_to p) as Hp;
    destruct (Pos.to_uint p) eqn:E; try contradiction.
  all: first [ rewrite to_int_uint by discriminate | rewrite to_int_neg_uint by discriminate ];
    now rewrite Hp.
Qed.

(** ** Merging twice *)

Lemma of_int_starts_numeric z : starts_numeric (Str.of_int z) = true.
Proof.
  unfold Str.of_int. destruct (Z.to_int z) as [u | u]; destruct u; reflexivity.
Qed.

Lemma str_numeric_scalar v :
  starts_numeric (Py.str v) = true -> (exists z, v = VInt z) \/ (exists s, v = VStr s).
Proof.
  destruct v as [| [] | z | s | l | d]; simpl; try discriminate; eauto.
Qed.

Lemma same_doc_scalar i i' :
  same_doc i i' -> starts_numeric (Py.str i) = true -> i' = i.
Proof.
  intros H Hn. destruct (str_numeric_scalar i Hn) as [[z ->] | [s ->]];
    inversion H; reflexivity.
Qed.

Lemma dict_get_set_eq k v d :
  Py.scalar_eqb k k = true -> Py.dict_get k (Py.dict_set k v d) = Some v.
Proof.
  intros Hk. induction d as [| [k' v'] d IH]; simpl.
  - now rewrite Hk.
  - destruct (Py.scalar_eqb k k') eqn:E; simpl; rewrite E; [reflexivity | exact IH].
Qed.

Lemma in_str_set_text s ids : Py.in_str_set (VStr s) ids = Ok (str_in s ids).
Proof. reflexivity. Qed.

Lemma get_smart_defaults_id k p dc m :
  get_smart_defaults k p dc = Ok m ->
  exists z, Py.to_int k = Ok z /\ Py.getitem m (VStr "id") = Ok (VInt z).
Proof.
  unfold get_smart_defaults.
  destruct (Py.to_int k) as [z |]; [| discriminate]. simpl.
  destruct (Py.lower p) as [proto |]; [| discriminate]. simpl.
  intros H. injection H as <-. exists z. split; [reflexivity |].
  destruct (Py.eqb dc (VStr "water")); [reflexivity |].
  destruct (Py.eqb dc (VStr "gas")); [reflexivity |].
  destruct (Py.eqb dc (VStr "energy")); reflexivity.
Qed.

Lemma str_ids_app l1 l2 :
  str_ids (l1 ++ l2)
  = exc_bind (str_ids l1) (fun a => exc_bind (str_ids l2) (fun b => Ok (a ++ b)%list)).
Proof.
  induction l1 as [| m l1 IH]; simpl.
  - destruct (str_ids l2); reflexivity.
  - destruct (Py.getitem m (VStr "id")); [| reflexivity]. simpl.
    rewrite IH. destruct (str_ids l1); [| reflexivity]. simpl.
    destruct (str_ids l2); reflexivity.
Qed.

Lemma getitem_id_same_doc m m' i :
  same_doc m m' -> Py.getitem m (VStr "id") = Ok i ->
  exists i', Py.getitem m' (VStr "id") = Ok i' /\ same_doc i i'.
Proof.
  intros H Hi. destruct m as [| | | | l | d]; try discriminate.
  apply same_doc_dict_inv in H as (d' & -> & _ & Hget).
  simpl in Hi. destruct (Py.dict_get (VStr "id") d) as [v |] eqn:E; [| discriminate].
  injection Hi as ->.
  destruct (same_doc_get d d' _ _ Hget E) as (i' & Hi' & Hs).
  exists i'. simpl. now rewrite Hi'.
Qed.

Lemma str_ids_same_doc l l' ids :
  Forall2 same_doc l l' -> str_ids l = Ok ids ->
  exists ids', str_ids l' = Ok ids' /\
               forall s, starts_numeric s = true -> In s ids -> In s ids'.
Proof.
  intros H. revert ids. induction H as [| m m' l l' Hm _ IH]; intros ids Hids.
  - injection Hids as <-. exists []. split; [reflexivity | auto].
  - simpl in Hids.
    destruct (Py.getitem m (VStr "id")) as [i |] eqn:Ei; [| discriminate]. simpl in Hids.
    destruct (str_ids l) as [ids0 |]; [| discriminate]. injection Hids as <-.
    destruct (getitem_id_same_doc m m' i Hm Ei) as (i' & Ei' & Hs).
    destruct (IH ids0 eq_refl) as (ids0' & E0 & Hin).
    exists (Py.str i' :: ids0'). simpl. rewrite Ei'. simpl. rewrite E0. simpl.
    split; [reflexivity |].
    intros s Hn [Hs0 | Hs0].
    + left. subst s. now rewrite (same_doc_scalar i i' Hs Hn).
    + right. now apply Hin.
Qed.

Lemma add_discovered_all_present items ids max config added :
  (forall k info, In (k, info) items -> Py.in_str_set k ids = Ok true) ->
  add_discovered items ids max config added = Ok (config, added).
Proof.
  induction items as [| [k info] items IH]; intros H; [reflexivity |].
  cbn [add_discovered]. rewrite (H k info) by now left. simpl.
  apply IH. intros k' info' Hin. apply (H k' info'). now right.
Qed.

Lemma append_meter_list d ms m :
  Py.dict_get (VStr "meters") d = Some (VList ms) ->
  append_meter (VDict d) m
  = Ok (VDict (Py.dict_set (VStr "meters") (VList (ms ++ [m])) d)).
Proof. intros H. unfold append_meter. simpl. now rewrite H. Qed.

Lemma add_discovered_canonical items existing max :
  forall d ms added config' added',
  Py.dict_get (VStr "meters") d = Some (VList ms) ->
  Forall (fun kv => canonical_id kv.1) items ->
  added + Z.of_nat (length items) <= max ->
  add_discovered items existing max (VDict d) added = Ok (config', added') ->
  exists new d',
    config' = VDict d' /\
    Py.dict_get (VStr "meters") d' = Some (VList (ms ++ new)) /\
    added' = added + Z.of_nat (length new) /\
    str_ids new = Ok (added_ids items existing).
Proof.
  induction items as [| [k info] items IH]; intros d ms added config' added' Hd Hc Hle Hr.
  { injection Hr as <- <-. exists [], d. rewrite app_nil_r. simpl.
    repeat split; [assumption | lia]. }
  apply Forall_cons in Hc as [(z & Hk) Hc]. simpl in Hk. subst k.
  pose proof (to_int_of_int z) as Hz.
  remember (Str.of_int z) as s eqn:Hs. symmetry in Hs.
  cbn [length] in Hle. cbn [add_discovered added_ids] in *.
  rewrite in_str_set_text in Hr. simpl in Hr.
  destruct (str_in s existing).
  - simpl in Hr. apply (IH d ms added config' added' Hd Hc); [lia | exact Hr].
  - replace (added <? max) with true in Hr by (symmetry; apply Z.ltb_lt; lia).
    simpl in Hr.
    destruct (Py.getitem info (VStr "protocol")) as [p |]; [| discriminate]. simpl in Hr.
    destruct (Py.getitem info (VStr "device_class")) as [dc |]; [| discriminate].
    simpl in Hr.
    destruct (get_smart_defaults (VStr s) p dc) as [m |] eqn:Em; [| discriminate].
    simpl in Hr. rewrite (append_meter_list d ms m Hd) in Hr. simpl in Hr.
    destruct (get_smart_defaults_id _ _ _ _ Em) as (z' & Hz' & Hid).
    simpl in Hz'. rewrite Hz in Hz'. injection Hz' as <-.
    destruct (IH _ (ms ++ [m])%list (added + 1) config' added'
                (dict_get_set_eq (VStr "meters") _ d (String.eqb_refl _)) Hc
                ltac:(lia) Hr) as (new & d' & -> & Hd' & -> & Hnew).
    exists (m :: new), d'. rewrite <- app_assoc in Hd'.
    repeat split; [exact Hd' | cbn [length]; lia |].
    simpl. rewrite Hid. simpl. rewrite Hnew. simpl. now rewrite Hs.
Qed.

Lemma existing_meters_shape config ids config0 :
  existing_meters config = Ok (ids, config0) ->
  exists d0 m, config0 = VDict d0 /\ Py.dict_get (VStr "meters") d0 = Some m /\
    ((exists ms, m = VList ms /\ str_ids ms = Ok ids) \/
     (forall x, Py.append m x = Raise AttributeError)).
Proof.
  assert (Hempty : forall d,
    exists d0 m, VDict (Py.dict_set (VStr "meters") (VList []) d) = VDict d0 /\
      Py.dict_get (VStr "meters") d0 = Some m /\
      ((exists ms, m = VList ms /\ str_ids ms = Ok []) \/
       (forall x, Py.append m x = Raise AttributeError))).
  { intros d. exists (Py.dict_set (VStr "meters") (VList []) d), (VList []).
    split; [reflexivity |]. split; [now apply dict_get_set_eq |].
    left. now exists []. }
  unfold existing_meters.
  destruct config as [| b | z | s | l | d]; simpl; try discriminate.
  - intros H. injection H as <- <-. apply (Hempty []).
  - destruct (Str.contains "meters" s); discriminate.
  - destruct (existsb _ l); discriminate.
  - unfold Py.dict_mem.
    destruct (Py.dict_get (VStr "meters") d) as [m |] eqn:Em; simpl.
    + destruct (Py.truthy m) eqn:Ht; simpl.
      * destruct (Py.iter m) as [ms |] eqn:Ei; [| discriminate]. simpl.
        destruct (str_ids ms) as [ids0 |] eqn:Es; [| discriminate]. simpl.
        intros H. injection H as <- <-. exists d, m. split; [reflexivity |].
        split; [exact Em |].
        destruct m; try discriminate; try (right; reflexivity).
        left. injection Ei as ->. eauto.
      * intros H. injection H as <- <-. apply Hempty.
    + intros H. injection H as <- <-. apply Hempty.
Qed.

Lemma add_discovered_no_list items existing max d m :
  Py.dict_get (VStr "meters") d = Some m ->
  (forall x, Py.append m x = Raise AttributeError) ->
  forall added config' added',
  add_discovered items existing max (VDict d) added = Ok (config', added') ->
  added' = added.
Proof.
  intros Hd Hm. induction items as [| [k info] items IH]; intros added config' added' Hr.
  { now injection Hr as _ <-. }
  cbn [add_discovered] in Hr.
  destruct (Py.in_str_set k existing) as [present |]; [| discriminate]. simpl in Hr.
  destruct (negb present && (added <? max)); [| now apply IH in Hr].
  destruct (Py.getitem info (VStr "protocol")); [| discriminate]. simpl in Hr.
  destruct (Py.getitem info (VStr "device_class")); [| discriminate]. simpl in Hr.
  destruct (get_smart_defaults k a a0); [| discriminate]. simpl in Hr.
  unfold append_meter in Hr. simpl in Hr. rewrite Hd in Hr. simpl in Hr.
  rewrite Hm in Hr. discriminate.
Qed.

Lemma added_ids_not_existing items existing s :
  In s (added_ids items existing) -> str_in s existing = false.
Proof.
  induction items as [| [k info] items IH]; simpl; [intros [] |].
  destruct k; try exact IH.
  destruct (str_in s0 existing) eqn:E; [exact IH |].
  intros [<- | H]; [exact E | now apply IH].
Qed.

Lemma added_ids_key items existing s :
  In s (added_ids items existing) -> In (VStr s) (map fst items).
Proof.
  induction items as [| [k info] items IH]; simpl; [intros [] |].
  destruct k; try (intros H; right; now apply IH).
  destruct (str_in s0 existing).
  - intros H; right; now apply IH.
  - intros [<- | H]; [now left | right; now apply IH].
Qed.

Lemma added_ids_NoDup items existing :
  List.NoDup (map fst items) -> List.NoDup (added_ids items existing).
Proof.
  induction items as [| [k info] items IH]; simpl; intros H; [constructor |].
  apply List.NoDup_cons_iff in H as [Hk H].
  destruct k; try now apply IH.
  destruct (str_in s existing); [now apply IH |].
  constructor; [| now apply IH].
  intros Hin. apply Hk. now apply added_ids_key in Hin.
Qed.

Lemma added_ids_covers items existing s info :
  In (VStr s, info) items -> In s (existing ++ added_ids items existing).
Proof.
  intros Hin. apply in_or_app.
  destruct (str_in s existing) eqn:E; [left; now apply str_in_In |].
  right. induction items as [| [k info0] items IH]; [destruct Hin |].
  destruct Hin as [Heq | Hin].
  - injection Heq as -> ->. simpl. rewrite E. now left.
  - simpl. destruct k; try now apply IH.
    destruct (str_in s0 existing); [now apply IH | right; now apply IH].
Qed.

Lemma read_after_write {bytes : Type} (d d1 : filesystem bytes) p b b' :
  read_file d p = Ok b -> write_file d p b' = Ok d1 -> read_file d1 p = Ok b'.
Proof.
  unfold read_file, write_file.
  destruct (files d !! p) as [f |]; [| discriminate].
  destruct (readable f) eqn:Hr; [| discriminate]. intros _.
  destruct (writable f); [| discriminate].
  intros H. injection H as <-. simpl. rewrite lookup_insert_eq. reflexivity.
Qed.

Lemma existing_meters_list d ms ids :
  Py.dict_get (VStr "meters") d = Some (VList ms) ->
  ms <> [] ->
  str_ids ms = Ok ids ->
  existing_meters (VDict d) = Ok (ids, VDict d).
Proof.
  intros Hd Hne Hs. unfold existing_meters. simpl. unfold Py.dict_mem.
  rewrite Hd. simpl. destruct ms as [| m ms]; [contradiction |].
  cbn [exc_bind Py.iter]. now rewrite Hs.
Qed.

Section Idempotence.

Context {bytes : Type}.
Variable safe_dump : pyval -> bytes.
Variable safe_load : bytes -> exc pyval.
Hypothesis roundtrip : codec_roundtrip safe_dump safe_load.

Abbreviation merge := (update_config_with_discovered_meters safe_dump safe_load).

(** What a pass that adds something has computed. *)
Lemma merge_plan_added (s : state bytes) items config1 added :
  discovered_meters s = VDict items ->
  Forall (fun kv => canonical_id kv.1) items ->
  Z.of_nat (length items) <= max_meters s ->
  merge_plan safe_load s = Ok (config1, added) ->
  0 < added ->
  exists b config ids ms new d1,
    read_file (disk s) (config_path s) = Ok b /\
    safe_load b = Ok config /\
    meter_ids config = Ok ids /\
    str_ids ms = Ok ids /\
    config1 = VDict d1 /\
    Py.dict_get (VStr "meters") d1 = Some (VList (ms ++ new)) /\
    new <> [] /\
    str_ids new = Ok (added_ids items ids).
Proof.
  intros Hd Hc Hle Hp Hpos. unfold merge_plan in Hp.
  destruct (read_file (disk s) (config_path s)) as [b |]; [| discriminate].
  simpl in Hp. destruct (safe_load b) as [config |] eqn:Hl; [| discriminate].
  simpl in Hp. destruct (existing_meters config) as [[ids config0] |] eqn:He;
    [| discriminate].
  rewrite Hd in Hp. simpl in Hp.
  destruct (existing_meters_shape _ _ _ He) as (d0 & m & -> & Hm & [(ms & -> & Hms) | Hno]).
  - destruct (add_discovered_canonical items ids (max_meters s) d0 ms 0 config1 added
                Hm Hc ltac:(lia) Hp) as (new & d1 & -> & Hd1 & -> & Hnew).
    exists b, config, ids, ms, new, d1.
    repeat split; try assumption; try reflexivity.
    + unfold meter_ids. now rewrite He.
    + intros ->. simpl in Hpos. lia.
  - apply (add_discovered_no_list items ids (max_meters s) d0 m Hm Hno) in Hp. lia.
Qed.

Lemma merge_second_pass (s : state bytes) items config1 added d1 :
  discovered_meters s = VDict items ->
  Forall (fun kv => canonical_id kv.1) items ->
  Z.of_nat (length items) <= max_meters s ->
  merge_plan safe_load s = Ok (config1, added) ->
  0 < added ->
  write_file (disk s) (config_path s) (safe_dump config1) = Ok d1 ->
  merge (set_disk d1 s) = (Ok tt, set_disk d1 s, []).
Proof.
  intros Hd Hc Hle Hp Hpos Hw.
  destruct (merge_plan_added s items config1 added Hd Hc Hle Hp Hpos)
    as (b & config & ids & ms & new & dd & Hb & Hl & _ & Hms & -> & Hdd & Hne & Hnew).
  destruct (roundtrip (VDict dd)) as (config' & Hl' & Hsame).
  apply same_doc_dict_inv in Hsame as (dd' & -> & _ & Hget).
  destruct (same_doc_get dd dd' _ _ Hget Hdd) as (m' & Hm' & Hsm).
  apply same_doc_list_inv in Hsm as (ms' & -> & Hall).
  assert (Hids : str_ids (ms ++ new) = Ok (ids ++ added_ids items ids)%list).
  { rewrite str_ids_app, Hms. simpl. now rewrite Hnew. }
  destruct (str_ids_same_doc _ _ _ Hall Hids) as (ids' & Hids' & Hin).
  assert (Hne' : ms' <> []).
  { intros ->. apply Forall2_length in Hall. rewrite length_app in Hall.
    destruct new; [contradiction | simpl in Hall; lia]. }
  assert (Hplan : merge_plan safe_load (set_disk d1 s) = Ok (VDict dd', 0)).
  { unfold merge_plan. simpl.
    rewrite (read_after_write _ _ _ _ _ Hb Hw). simpl. rewrite Hl'. simpl.
    rewrite (existing_meters_list dd' ms' ids' Hm' Hne' Hids'). simpl.
    rewrite Hd. simpl. apply add_discovered_all_present.
    intros k info Hk.
    pose proof (proj1 (List.Forall_forall _ _) Hc _ Hk) as (z & Hkz).
    simpl in Hkz. subst k. rewrite in_str_set_text. f_equal.
    apply str_in_In, Hin.
    - apply of_int_starts_numeric.
    - now apply (added_ids_covers items ids _ info). }
  rewrite merge_run, Hplan. destruct (negb _); reflexivity.
Qed.

Lemma merge_keeps_or_writes (s : state bytes) :
  state_of (merge s) = s \/
  exists config1 added d1,
    merge_plan safe_load s = Ok (config1, added) /\ 0 < added /\
    write_file (disk s) (config_path s) (safe_dump config1) = Ok d1 /\
    state_of (merge s) = set_disk d1 s.
Proof.
  rewrite merge_run. destruct (negb _); [now left |].
  destruct (merge_plan safe_load s) as [[config1 added] |]; [| now left].
  destruct (0 <? added) eqn:Hpos; [| now left].
  destruct (write_file _ _ _) as [d1 |] eqn:Hw; [| now left].
  right. exists config1, added, d1. apply Z.ltb_lt in Hpos. auto.
Qed.

(** C1, amended: with a catalog whose meter_ids are the decimal texts
    of integers and that holds at most [max_meters] entries, a second
    merge leaves the tracker and the disk, so the primary configuration
    and its meter list, exactly as the first one left them; and when the
    ids already in the configuration are distinct as texts, the meter
    list a pass writes has distinct ids: those ids, then the catalog's
    ids that were not among them. *)
Theorem merge_twice (s : state bytes) items :
  discovered_meters s = VDict items ->
  Forall (fun kv => canonical_id kv.1) items ->
  Z.of_nat (length items) <= max_meters s ->
  state_of (merge (state_of (merge s))) = state_of (merge s) /\
  (forall b config ids config1 added,
     read_file (disk s) (config_path s) = Ok b ->
     safe_load b = Ok config ->
     meter_ids config = Ok ids ->
     List.NoDup ids ->
     List.NoDup (map fst items) ->
     merge_plan safe_load s = Ok (config1, added) ->
     0 < added ->
     meter_ids config1 = Ok (ids ++ added_ids items ids)%list /\
     List.NoDup (ids ++ added_ids items ids)).
Proof.
  intros Hd Hc Hle. split.
  - destruct (merge_keeps_or_writes s) as [H | (config1 & added & d1 & Hp & Hpos & Hw & ->)].
    + now rewrite !H.
    + now rewrite (merge_second_pass s items config1 added d1).
  - intros b config ids config1 added Hb Hl Hids Hnd Hkeys Hp Hpos.
    destruct (merge_plan_added s items config1 added Hd Hc Hle Hp Hpos)
      as (b' & config' & ids' & ms & new & d1 & Hb' & Hl' & Hids' & Hms & -> & Hd1 & Hne & Hnew).
    rewrite Hb in Hb'. injection Hb' as <-.
    rewrite Hl in Hl'. injection Hl' as <-.
    rewrite Hids in Hids'. injection Hids' as <-.
    split.
    + unfold meter_ids.
      rewrite (existing_meters_list d1 (ms ++ new) (ids ++ added_ids items ids) Hd1).
      * reflexivity.
      * destruct ms; [exact Hne | discriminate].
      * rewrite str_ids_app, Hms. simpl. now rewrite Hnew.
    + apply List.NoDup_app; [exact Hnd | now apply added_ids_NoDup |].
      intros t Ht Ht'. apply added_ids_not_existing in Ht'.
      apply str_in_In in Ht. congruence.
Qed.

End Idempotence.

(** C1, as stated, fails: a tracker made for one meter that loads a
    catalog of two merges one meter per pass, so the second pass changes
    the meter list again; and the two entries that shared an id before
    the merge still do after it. *)
Lemma merge_twice_changes_list :
  let catalog := VDict [ (VStr "1", new_entry "scm" "gas" VNone);
                         (VStr "2", new_entry "scm" "gas" VNone) ] in
  let config := VDict [(VStr "meters",
                  VList [VDict [(VStr "id", VInt 5)]; VDict [(VStr "id", VInt 5)]])] in
  let d := Plain.with_file "config_discovered.yaml"
             (VDict [(VStr "discovered_meters", catalog)])
             (Plain.with_file "config.yaml" config Plain.no_files) in
  let s := state_of (init Plain.load "config.yaml" 1 false d) in
  let s1 := state_of (update_config_with_discovered_meters Plain.dump Plain.load s) in
  let s2 := state_of (update_config_with_discovered_meters Plain.dump Plain.load s1) in
  discovered_meters s2 = catalog /\
  exc_bind (read_file (disk s1) "config.yaml") meter_ids = Ok ["5"; "5"; "1"] /\
  exc_bind (read_file (disk s2) "config.yaml") meter_ids = Ok ["5"; "5"; "1"; "2"].
Proof. repeat split; reflexivity. Qed.

(** A meter_id that is not the decimal text of its integer is added
    again by every pass. *)
Example merge_twice_leading_zero :
  let catalog := VDict [ (VStr "012", new_entry "scm" "gas" VNone) ] in
  let config := VDict [(VStr "meters", VList [])] in
  let s := State "config.yaml" 25 false catalog
             (Plain.with_file "config.yaml" config Plain.no_files) in
  let s1 := state_of (update_config_with_discovered_meters Plain.dump Plain.load s) in
  let s2 := state_of (update_config_with_discovered_meters Plain.dump Plain.load s1) in
  exc_bind (read_file (disk s1) "config.yaml") meter_ids = Ok ["12"] /\
  exc_bind (read_file (disk s2) "config.yaml") meter_ids = Ok ["12"; "12"].
Proof. split; reflexivity. Qed.

(** So is a meter_id recorded as an integer. *)
Example merge_twice_int_key :
  let config := VDict [(VStr "meters", VList [])] in
  let s0 := State "config.yaml" 25 false (VDict [])
              (Plain.with_file "config.yaml" config Plain.no_files) in
  let s := state_of (add_meter (VInt 12345) (VStr "scm") VNone s0) in
  let s1 := state_of (update_config_with_discovered_meters Plain.dump Plain.load s) in
  let s2 := state_of (update_config_with_discovered_meters Plain.dump Plain.load s1) in
  exc_bind (read_file (disk s1) "config.yaml") meter_ids = Ok ["12345"] /\
  exc_bind (read_file (disk s2) "config.yaml") meter_ids = Ok ["12345"; "12345"].
Proof. split; reflexivity. Qed.

Lemma merge_twice_witness :
  let catalog := VDict [ (VStr "10", new_entry "scm" "gas" (VInt 5000));
                         (VStr "7", new_entry "idm" "energy" VNone) ] in
  let config := VDict [(VStr "meters", VList [VDict [(VStr "id", VInt 7)]])] in
  let s := State "config.yaml" 25 false catalog
             (Plain.with_file "config.yaml" config Plain.no_files) in
  let s1 := state_of (update_config_with_discovered_meters Plain.dump Plain.load s) in
  exc_bind (read_file (disk s1) "config.yaml") meter_ids = Ok ["7"; "10"] /\
  state_of (update_config_with_discovered_meters Plain.dump Plain.load s1) = s1.
Proof.
  intros catalog config s s1. split; [reflexivity |].
  refine (proj1 (merge_twice Plain.dump Plain.load plain_roundtrip s
            [ (VStr "10", new_entry "scm" "gas" (VInt 5000));
              (VStr "7", new_entry "idm" "energy" VNone) ] eq_refl _ _)).
  - repeat constructor; [now exists 10 | now exists 7].
  - simpl. lia.
Defined.

(** * Further properties of the code *)

(** ** The classifier on any input *)

Lemma str_in_cases s l : str_in s l = true -> In s l.
Proof. apply str_in_In. Qed.

Lemma lower_protocol_text p :
  (if Py.truthy p then Str.lower (Py.str p) else "") = Str.lower (protocol_text p).
Proof. unfold protocol_text. destruct (Py.truthy p); reflexivity. Qed.

Lemma and_gt_raised c n : raised (and_gt c n) = negb (comparable c).
Proof.
  unfold and_gt, comparable, Py.gt.
  destruct (Py.truthy c); [| reflexivity]. now destruct (Py.as_int c).
Qed.

Lemma guess_meter_type_range protocol consumption dc :
  guess_meter_type protocol consumption = Ok dc ->
  dc = "gas" \/ dc = "water" \/ dc = "energy".
Proof.
  unfold guess_meter_type.
  repeat match goal with
  | |- context [if ?b then _ else _] => destruct b
  | |- context [exc_bind ?x _] => destruct x as [[] |]; simpl
  end; intros H; try discriminate; injection H as <-; auto.
Qed.

Lemma guess_meter_type_raised (protocol consumption : pyval) :
  raised (guess_meter_type protocol consumption)
  = metered_by_consumption (Str.lower (protocol_text protocol))
    && negb (comparable consumption).
Proof.
  unfold guess_meter_type, metered_by_consumption.
  rewrite lower_protocol_text.
  set (p := Str.lower (protocol_text protocol)).
  pose proof (and_gt_raised consumption 100000) as H1.
  pose proof (and_gt_raised consumption 50000) as H2.
  destruct (str_in p ["idm"; "netidm"]) eqn:E1.
  { apply str_in_cases in E1. simpl in E1.
    destruct E1 as [<- | [<- | []]]; reflexivity. }
  destruct (str_in p ["scm"; "scm+"]) eqn:E2.
  { apply str_in_cases in E2. simpl in E2.
    assert (E : str_in p ["scm"; "scm+"; "r900"; "r900bcd"] = true)
      by (destruct E2 as [<- | [<- | []]]; reflexivity).
    rewrite E. simpl.
    destruct (and_gt consumption 100000); simpl in *; congruence. }
  destruct (str_in p ["r900"; "r900bcd"]) eqn:E3.
  { apply str_in_cases in E3. simpl in E3.
    assert (E : str_in p ["scm"; "scm+"; "r900"; "r900bcd"] = true)
      by (destruct E3 as [<- | [<- | []]]; reflexivity).
    rewrite E. simpl.
    destruct (and_gt consumption 50000); simpl in *; congruence. }
  assert (E : str_in p ["scm"; "scm+"; "r900"; "r900bcd"] = false).
  { destruct (str_in p ["scm"; "scm+"; "r900"; "r900bcd"]) eqn:E; [| reflexivity].
    apply str_in_cases in E. simpl in E.
    destruct E as [<- | [<- | [<- | [<- | []]]]]; discriminate. }
  now rewrite E.
Qed.

(** X1: [guess_meter_type] answers gas, water or energy and nothing
    else, and it raises exactly when the protocol is one of scm, scm+,
    r900, r900bcd (in any case) and the consumption is neither falsy nor
    a number. *)
Theorem guess_meter_type_outcomes (protocol consumption : pyval) :
  raised (guess_meter_type protocol consumption)
  = metered_by_consumption (Str.lower (protocol_text protocol))
    && negb (comparable consumption) /\
  forall dc, guess_meter_type protocol consumption = Ok dc ->
             dc = "gas" \/ dc = "water" \/ dc = "energy".
Proof.
  split; [apply guess_meter_type_raised | apply guess_meter_type_range].
Qed.

Lemma lower_char_numeric c :
  (Ascii.eqb c "-" || match Str.digit_val c with Some _ => true | None => false end) = true ->
  Str.lower_char c = c.
Proof.
  unfold Str.lower_char, Str.is_upper, Str.digit_val. cbv zeta. intros H.
  destruct (Ascii.eqb c "-") eqn:E0.
  { apply Ascii.eqb_eq in E0. subst c. reflexivity. }
  rewrite orb_false_l in H.
  destruct (Nat.leb 48 (nat_of_ascii c) && Nat.leb (nat_of_ascii c) 57)%bool eqn:E;
    [| discriminate H].
  apply andb_prop in E as [_ E]. apply Nat.leb_le in E.
  replace (Nat.leb 65 (nat_of_ascii c)) with false; [reflexivity |].
  symmetry. apply Nat.leb_gt. lia.
Qed.

Lemma starts_numeric_lower s :
  starts_numeric s = true -> starts_numeric (Str.lower s) = true.
Proof.
  destruct s as [| c r]; [discriminate |]. cbn [starts_numeric Str.lower]. intros H.
  now rewrite (lower_char_numeric c H).
Qed.

Lemma numeric_not_named s l :
  starts_numeric s = true -> forallb (fun t => negb (starts_numeric t)) l = true ->
  str_in s l = false.
Proof.
  intros Hs Hl. destruct (str_in s l) eqn:E; [| reflexivity].
  apply str_in_In in E. rewrite forallb_forall in Hl.
  apply Hl in E. rewrite Hs in E. discriminate.
Qed.

(** X2: a protocol that is not a text (an integer, a boolean, [None]) is
    classified energy, whatever the consumption, and never raises: its
    text form is none of the protocol names. *)
Theorem guess_meter_type_not_text (consumption : pyval) :
  (forall z, guess_meter_type (VInt z) consumption = Ok "energy") /\
  (forall b, guess_meter_type (VBool b) consumption = Ok "energy") /\
  guess_meter_type VNone consumption = Ok "energy".
Proof.
  split; [| split; [intros []; reflexivity | reflexivity]].
  intros z. unfold guess_meter_type. simpl Py.truthy.
  destruct (negb (z =? 0)); [| reflexivity].
  assert (H : starts_numeric (Str.lower (Py.str (VInt z))) = true)
    by apply starts_numeric_lower, of_int_starts_numeric.
  now rewrite !(numeric_not_named _ _ H) by reflexivity.
Qed.

(** ** The definition of a meter *)

Lemma eqb_text dc s : Py.eqb dc (VStr s) = true <-> dc = VStr s.
Proof.
  destruct dc as [| b | z | t | l | d]; simpl; split; try discriminate; try congruence.
  - intros H. apply String.eqb_eq in H. now subst.
  - intros H. injection H as ->. apply String.eqb_refl.
Qed.

Lemma eqb_text_false dc s : dc <> VStr s -> Py.eqb dc (VStr s) = false.
Proof.
  intros H. destruct (Py.eqb dc (VStr s)) eqn:E; [| reflexivity].
  now apply eqb_text in E.
Qed.

Lemma get_smart_defaults_units meter_id protocol dc m :
  get_smart_defaults meter_id protocol (VStr dc) = Ok m ->
  dc = "gas" \/ dc = "water" \/ dc = "energy" ->
  exists f u, Py.getitem m (VStr "format") = Ok (VStr f) /\
              Py.getitem m (VStr "unit_of_measurement") = Ok (VStr u).
Proof.
  unfold get_smart_defaults.
  destruct (Py.to_int meter_id); [| discriminate].
  destruct (Py.lower protocol); [| discriminate]. simpl.
  intros H [-> | [-> | ->]]; injection H as <-; eauto.
Qed.

(** X3: for a meter_id that converts to the integer [z] and a protocol
    that is a text, [get_smart_defaults] gives a mapping with the id [z],
    the protocol in lower case, the name meter_ followed by the meter_id
    as given, the device class as given and the state class
    total_increasing; the format and the unit follow the device class
    alone, and any class other than water, gas and energy (in these exact
    letters) gets neither. *)
Theorem get_smart_defaults_fields (meter_id : pyval) (z : Z) (protocol : string)
    (dc : pyval) :
  Py.to_int meter_id = Ok z ->
  exists m,
    get_smart_defaults meter_id (VStr protocol) dc = Ok m /\
    Py.getitem m (VStr "id") = Ok (VInt z) /\
    Py.getitem m (VStr "protocol") = Ok (VStr (Str.lower protocol)) /\
    Py.getitem m (VStr "name") = Ok (VStr ("meter_" +:+ Py.str meter_id)) /\
    Py.getitem m (VStr "device_class") = Ok dc /\
    Py.getitem m (VStr "state_class") = Ok (VStr "total_increasing") /\
    (dc = VStr "water" ->
     Py.getitem m (VStr "format") = Ok (VStr "######.##") /\
     Py.getitem m (VStr "unit_of_measurement") = Ok (VStr "gal")) /\
    (dc = VStr "gas" ->
     Py.getitem m (VStr "format") = Ok (VStr "######.##") /\
     Py.getitem m (VStr "unit_of_measurement") = Ok (VStr "ftÂ³")) /\
    (dc = VStr "energy" ->
     Py.getitem m (VStr "format") = Ok (VStr "######.###") /\
     Py.getitem m (VStr "unit_of_measurement") = Ok (VStr "kWh")) /\
    (dc <> VStr "water" -> dc <> VStr "gas" -> dc <> VStr "energy" ->
     Py.getitem m (VStr "format") = Raise KeyError /\
     Py.getitem m (VStr "unit_of_measurement") = Raise KeyError).
Proof.
  intros Hz. unfold get_smart_defaults. rewrite Hz. simpl.
  destruct (Py.eqb dc (VStr "water")) eqn:Ew.
  { apply eqb_text in Ew. subst dc. eexists. split; [reflexivity |].
    repeat split; try reflexivity; intros; congruence. }
  destruct (Py.eqb dc (VStr "gas")) eqn:Eg.
  { apply eqb_text in Eg. subst dc. eexists. split; [reflexivity |].
    repeat split; try reflexivity; intros; congruence. }
  destruct (Py.eqb dc (VStr "energy")) eqn:Ee.
  { apply eqb_text in Ee. subst dc. eexists. split; [reflexivity |].
    repeat split; try reflexivity; intros; congruence. }
  eexists. split; [reflexivity |].
  repeat split; try reflexivity; intros; subst dc; discriminate.
Qed.

Lemma get_smart_defaults_fields_witness :
  Py.to_int (VStr "012") = Ok 12 /\
  exists m,
    get_smart_defaults (VStr "012") (VStr "SCM") (VStr "gas") = Ok m /\
    Py.getitem m (VStr "id") = Ok (VInt 12) /\
    Py.getitem m (VStr "name") = Ok (VStr "meter_012") /\
    Py.getitem m (VStr "unit_of_measurement") = Ok (VStr "ftÂ³").
Proof.
  split; [reflexivity |].
  destruct (get_smart_defaults_fields (VStr "012") 12 "SCM" (VStr "gas") eq_refl)
    as (m & Hm & Hid & _ & Hname & _ & _ & _ & Hgas & _).
  exists m. repeat split; try assumption. now apply Hgas.
Defined.

(** X4: a device class that [guess_meter_type] has answered always gets
    a format and a unit from [get_smart_defaults]: no definition built
    from a recorded meter lacks them. *)
Theorem guessed_class_has_units (protocol consumption meter_id protocol' : pyval)
    (dc : string) (m : pyval) :
  guess_meter_type protocol consumption = Ok dc ->
  get_smart_defaults meter_id protocol' (VStr dc) = Ok m ->
  exists f u, Py.getitem m (VStr "format") = Ok (VStr f) /\
              Py.getitem m (VStr "unit_of_measurement") = Ok (VStr u).
Proof.
  intros Hg Hm. apply (get_smart_defaults_units _ _ _ _ Hm).
  exact (guess_meter_type_range _ _ _ Hg).
Qed.

Lemma guessed_class_has_units_witness :
  guess_meter_type (VStr "R900") (VInt 60000) = Ok "water" /\
  exists m f u,
    get_smart_defaults (VStr "77") (VStr "r900") (VStr "water") = Ok m /\
    Py.getitem m (VStr "format") = Ok (VStr f) /\
    Py.getitem m (VStr "unit_of_measurement") = Ok (VStr u).
Proof.
  split; [reflexivity |].
  eexists.
  destruct (guessed_class_has_units (VStr "R900") (VInt 60000) (VStr "77") (VStr "r900")
              "water" _ eq_refl eq_refl) as (f & u & Hf & Hu).
  exists f, u. split; [reflexivity |]. split; assumption.
Defined.

(** ** Recording, on any input *)

(** X5: a record call that raises has changed nothing and logged
    nothing: the exception leaves the tracker as it was. *)
Theorem add_meter_raises_unchanged {bytes : Type} (s : state bytes)
    (meter_id protocol consumption : pyval) (e : exn) :
  result_of (add_meter meter_id protocol consumption s) = Raise e ->
  add_meter meter_id protocol consumption s = (Raise e, s, []).
Proof.
  unfold add_meter. run_m.
  destruct (Py.contains meter_id (discovered_meters s)) as [[] |]; simpl;
    try discriminate; try (now intros [= ->]).
  destruct (Py.len (discovered_meters s)) as [n |]; simpl; try (now intros [= ->]).
  destruct (n <? max_meters s); simpl; try discriminate.
  destruct (guess_meter_type _ consumption); simpl; try (now intros [= ->]).
  destruct (Py.setitem _ _ _); simpl; try (now intros [= ->]).
  destruct (logger s); discriminate.
Qed.

Lemma add_meter_raises_unchanged_witness :
  let s := State "config.yaml" 25 true (VDict []) Plain.no_files in
  result_of (add_meter (VStr "10") (VStr "scm") (VStr "many") s) = Raise TypeError /\
  add_meter (VStr "10") (VStr "scm") (VStr "many") s = (Raise TypeError, s, []).
Proof.
  intros s. split; [reflexivity |].
  apply (add_meter_raises_unchanged s (VStr "10") (VStr "scm") (VStr "many") TypeError).
  reflexivity.
Defined.

(** X6: on a dictionary catalog, with a hashable meter_id and a
    consumption that is falsy or a number, a record call returns: no
    protocol, of any type, makes it raise. *)
Theorem add_meter_returns {bytes : Type} (s : state bytes) d
    (meter_id protocol consumption : pyval) :
  discovered_meters s = VDict d ->
  Py.hashable meter_id = true ->
  comparable consumption = true ->
  result_of (add_meter meter_id protocol consumption s) = Ok tt.
Proof.
  intros Hd Hh Hc. unfold add_meter. run_m. rewrite Hd. simpl. rewrite Hh.
  destruct (Py.dict_mem meter_id d); simpl; [reflexivity |].
  destruct (Z.of_nat (length d) <? max_meters s); simpl; [| reflexivity].
  pose proof (guess_meter_type_raised
                (VStr (if Py.truthy protocol then Py.str protocol else ""))
                consumption) as Hr.
  rewrite Hc, andb_false_r in Hr.
  destruct (guess_meter_type _ consumption); [| discriminate]. simpl.
  destruct (logger s); reflexivity.
Qed.

Lemma add_meter_returns_witness :
  let s := State "config.yaml" 25 true (VDict []) Plain.no_files in
  comparable (VInt 100) = true /\
  result_of (add_meter (VStr "12345") (VInt 123) (VInt 100) s) = Ok tt.
Proof.
  intros s. split; [reflexivity |].
  apply (add_meter_returns s [] (VStr "12345") (VInt 123) (VInt 100)); reflexivity.
Defined.

(** X7: a record call on a full catalog is dropped in silence: it
    returns, changes nothing and sends nothing to the logger. *)
Theorem add_meter_full_silent {bytes : Type} (s : state bytes) d
    (meter_id protocol consumption : pyval) :
  discovered_meters s = VDict d ->
  Py.hashable meter_id = true ->
  max_meters s <= Z.of_nat (length d) ->
  add_meter meter_id protocol consumption s = (Ok tt, s, []).
Proof.
  intros Hd Hh Hfull. unfold add_meter. run_m. rewrite Hd. simpl. rewrite Hh.
  destruct (Py.dict_mem meter_id d); simpl; [reflexivity |].
  replace (Z.of_nat (length d) <? max_meters s) with false; [reflexivity |].
  symmetry. apply Z.ltb_ge. exact Hfull.
Qed.

Lemma add_meter_full_silent_witness :
  let s := State "config.yaml" 1 true
             (VDict [(VStr "1", new_entry "scm" "gas" VNone)]) Plain.no_files in
  add_meter (VStr "2") (VStr "idm") VNone s = (Ok tt, s, []).
Proof.
  intros s.
  apply (add_meter_full_silent s [(VStr "1", new_entry "scm" "gas" VNone)]);
    [reflexivity | reflexivity | simpl; lia].
Defined.

(** ** Loading and saving, on any disk *)

Section Files.

Context {bytes : Type}.
Variable safe_dump : pyval -> bytes.
Variable safe_load : bytes -> exc pyval.

Lemma write_file_frame (d d1 : filesystem bytes) p b q :
  write_file d p b = Ok d1 -> q <> p -> files d1 !! q = files d !! q.
Proof.
  unfold write_file. intros H Hq.
  destruct (files d !! p) as [f |].
  - destruct (writable f); [| discriminate]. injection H as <-. simpl.
    now apply lookup_insert_ne.
  - destruct (can_create d p); [| discriminate]. injection H as <-. simpl.
    now apply lookup_insert_ne.
Qed.

(** X8: loading never raises and never touches the disk or the other
    fields of the tracker, whatever the catalog file holds. *)
Theorem load_contained (s : state bytes) :
  let o := load_discovered_meters safe_load s in
  result_of o = Ok tt /\ disk (state_of o) = disk s /\
  config_path (state_of o) = config_path s /\
  max_meters (state_of o) = max_meters s /\ logger (state_of o) = logger s.
Proof.
  unfold load_discovered_meters. run_m. unfold when.
  destruct (isfile_readable _ _); simpl; [| repeat split; reflexivity].
  destruct (read_file _ _) as [b |]; simpl;
    [| destruct (logger s) eqn:El; simpl; repeat split; auto].
  destruct (safe_load b) as [data |]; simpl;
    [| destruct (logger s) eqn:El; simpl; repeat split; auto].
  destruct (if Py.truthy data then _ else _) as [[] |]; simpl;
    [| repeat split; reflexivity
     | destruct (logger s) eqn:El; simpl; repeat split; auto].
  destruct (Py.getitem data (VStr "discovered_meters")) as [v |]; simpl;
    [| destruct (logger s) eqn:El; simpl; repeat split; auto].
  destruct (logger s) eqn:El; simpl; [| repeat split; auto].
  destruct (Py.len v); simpl; [repeat split; auto |].
  rewrite El. simpl. repeat split; auto.
Qed.

(** X9: a catalog file that does not parse, or that parses to a
    document without the key [discovered_meters] (or to an empty one),
    leaves the new tracker with an empty catalog; the parse error is
    logged as a warning, the missing key is not logged at all. *)
Theorem load_falls_back_to_empty path max lg (d : filesystem bytes) b :
  read_file d (discovered_file path) = Ok b ->
  (forall e, safe_load b = Raise e ->
     init safe_load path max lg d
     = (Ok tt, State path max lg (VDict []) d,
        if lg then [LogRecord WARNING "Failed to load discovered meters: %s" [AExn e]]
        else [])) /\
  (forall doc, safe_load b = Ok doc ->
     Py.truthy doc = false \/ Py.contains (VStr "discovered_meters") doc = Ok false ->
     init safe_load path max lg d = (Ok tt, State path max lg (VDict []) d, [])).
Proof.
  intros Hb.
  assert (Hr : isfile_readable d (discovered_file path) = true).
  { unfold isfile_readable, read_file in *.
    destruct (files d !! discovered_file path) as [f |]; [| discriminate].
    now destruct (readable f). }
  split.
  - intros e He. unfold init, load_discovered_meters. run_m.
    rewrite Hr. simpl. rewrite Hb. simpl. rewrite He. simpl.
    destruct lg; reflexivity.
  - intros doc Hdoc Hno. unfold init, load_discovered_meters. run_m.
    rewrite Hr. simpl. rewrite Hb. simpl. rewrite Hdoc.
    cbn -[Py.truthy Py.contains].
    destruct Hno as [-> | Hc]; [reflexivity |].
    destruct (Py.truthy doc); [rewrite Hc |]; reflexivity.
Qed.

(** X10: saving never raises and never changes the catalog, and it
    leaves every file other than the catalog file as it was; when the
    catalog file cannot be written the disk is unchanged and the failure
    is logged as an error. *)
Theorem save_contained (s : state bytes) :
  let o := save_discovered_meters safe_dump s in
  result_of o = Ok tt /\
  discovered_meters (state_of o) = discovered_meters s /\
  (forall q, q <> discovered_file (config_path s) ->
             files (disk (state_of o)) !! q = files (disk s) !! q) /\
  (forall e,
     write_file (disk s) (discovered_file (config_path s))
       (safe_dump (VDict [(VStr "discovered_meters", discovered_meters s)])) = Raise e ->
     o = (Ok tt, s,
          if logger s
          then [LogRecord ERROR "Failed to save discovered meters: %s" [AExn e]]
          else [])).
Proof.
  unfold save_discovered_meters. run_m. unfold when.
  destruct (write_file _ _ _) as [d1 | e0] eqn:Hw; simpl.
  - assert (Hf : forall q, q <> discovered_file (config_path s) ->
                           files d1 !! q = files (disk s) !! q)
      by (intros q Hq; exact (write_file_frame _ _ _ _ _ Hw Hq)).
    destruct (logger s) eqn:El; simpl.
    + destruct (Py.len (discovered_meters s)); simpl.
      * repeat split; try assumption. intros e1 He. discriminate.
      * rewrite El. simpl. repeat split; try assumption. intros e1 He. discriminate.
    + repeat split; try assumption. intros e1 He. discriminate.
  - destruct (logger s) eqn:El; simpl; repeat split;
      intros e1 He; injection He as ->; destruct s; simpl in *; now subst.
Qed.

End Files.

Lemma load_falls_back_to_empty_witness :
  let d := Garbled.with_file "config_discovered.yaml" None in
  read_file d (discovered_file "config.yaml") = Ok None /\
  init Garbled.load "config.yaml" 25 true d
  = (Ok tt, State "config.yaml" 25 true (VDict []) d,
     [LogRecord WARNING "Failed to load discovered meters: %s" [AExn YAMLError]]).
Proof.
  intros d. split; [reflexivity |].
  apply (proj1 (load_falls_back_to_empty Garbled.load "config.yaml" 25 true d None eq_refl)).
  reflexivity.
Defined.

Lemma append_empty s : s +:+ "" = s.
Proof. induction s as [| c s IH]; [reflexivity |]. now rewrite append_cons, IH. Qed.

Lemma discovered_file_no_extension p : plain_stem p -> discovered_file p = p.
Proof.
  intros H. unfold discovered_file, Str.replace.
  rewrite <- (append_empty p) at 1.
  rewrite (replace_from_plain_stem "aml" _ p "" H eq_refl). simpl Str.replace_from.
  rewrite (replace_from_plain_stem "ml" _ p "" H eq_refl). simpl Str.replace_from.
  now rewrite !append_empty.
Qed.

(** X11: when no dot of the configuration path is followed by a y (the
    path has neither extension), the catalog file is the configuration
    file itself: a save that succeeds leaves the primary configuration
    holding the catalog document. *)
Theorem save_overwrites_config {bytes : Type} (safe_dump : pyval -> bytes)
    (s : state bytes) :
  plain_stem (config_path s) ->
  can_save s ->
  discovered_file (config_path s) = config_path s /\
  read_file (disk (state_of (save_discovered_meters safe_dump s))) (config_path s)
  = Ok (safe_dump (VDict [(VStr "discovered_meters", discovered_meters s)])).
Proof.
  intros Hp Hs. pose proof (discovered_file_no_extension _ Hp) as E.
  split; [exact E |].
  pose proof (save_writes safe_dump s Hs) as Hf. rewrite E in Hf.
  unfold read_file. now rewrite Hf.
Qed.

Lemma save_overwrites_config_witness :
  let config := VDict [(VStr "meters", VList [])] in
  let catalog := VDict [(VStr "10", new_entry "scm" "gas" VNone)] in
  let s := State "/config/rtlamr2mqtt.json" 25 false catalog
             (Plain.with_file "/config/rtlamr2mqtt.json" config Plain.no_files) in
  plain_stem (config_path s) /\ can_save s /\
  read_file (disk (state_of (save_discovered_meters Plain.dump s))) "/config/rtlamr2mqtt.json"
  = Ok (VDict [(VStr "discovered_meters", catalog)]).
Proof.
  intros config catalog s. split; [reflexivity |].
  assert (Hs : can_save s) by (split; reflexivity).
  split; [exact Hs |].
  exact (proj2 (save_overwrites_config Plain.dump s eq_refl Hs)).
Defined.

(** ** Merging, on any configuration *)

Lemma scalar_eqb_text s k : Py.scalar_eqb (VStr s) k = true -> k = VStr s.
Proof.
  destruct k; simpl; try discriminate.
  intros H. apply String.eqb_eq in H. now subst.
Qed.

Lemma dict_get_set_other k s v d :
  Py.scalar_eqb k (VStr s) = false ->
  Py.dict_get k (Py.dict_set (VStr s) v d) = Py.dict_get k d.
Proof.
  intros Hk. induction d as [| [k' v'] d IH]; cbn [Py.dict_get Py.dict_set].
  - now rewrite Hk.
  - destruct (Py.scalar_eqb (VStr s) k') eqn:E; cbn [Py.dict_get].
    + apply scalar_eqb_text in E. subst k'. now rewrite Hk.
    + now rewrite IH.
Qed.

Lemma add_discovered_bound items existing max :
  forall config added config' added',
  add_discovered items existing max config added = Ok (config', added') ->
  added <= added' /\ added' <= Z.max added max /\
  added' - added <= Z.of_nat (length items).
Proof.
  induction items as [| [k info] items IH]; intros config added config' added' Hr.
  { injection Hr as _ <-. simpl. lia. }
  cbn [add_discovered] in Hr. cbn [length].
  destruct (Py.in_str_set k existing) as [present |]; [| discriminate]. simpl in Hr.
  destruct (negb present && (added <? max)) eqn:Ec.
  - apply andb_prop in Ec as [_ Hlt]. apply Z.ltb_lt in Hlt.
    destruct (Py.getitem info (VStr "protocol")); [| discriminate]. simpl in Hr.
    destruct (Py.getitem info (VStr "device_class")); [| discriminate]. simpl in Hr.
    destruct (get_smart_defaults k a a0); [| discriminate]. simpl in Hr.
    destruct (append_meter config a1); [| discriminate]. simpl in Hr.
    apply IH in Hr. lia.
  - apply IH in Hr. lia.
Qed.

Lemma add_discovered_extends items existing max :
  forall d ms added config' added',
  Py.dict_get (VStr "meters") d = Some (VList ms) ->
  add_discovered items existing max (VDict d) added = Ok (config', added') ->
  exists new d',
    config' = VDict d' /\
    Py.dict_get (VStr "meters") d' = Some (VList (ms ++ new)) /\
    added' = added + Z.of_nat (length new) /\
    (forall k, Py.scalar_eqb k (VStr "meters") = false ->
               Py.dict_get k d' = Py.dict_get k d).
Proof.
  induction items as [| [k info] items IH]; intros d ms added config' added' Hd Hr.
  { injection Hr as <- <-. exists [], d. rewrite app_nil_r. simpl.
    repeat split; [assumption | lia]. }
  cbn [add_discovered] in Hr.
  destruct (Py.in_str_set k existing) as [present |]; [| discriminate]. simpl in Hr.
  destruct (negb present && (added <? max)); [| now apply (IH d ms added)].
  destruct (Py.getitem info (VStr "protocol")) as [p |]; [| discriminate]. simpl in Hr.
  destruct (Py.getitem info (VStr "device_class")) as [dc |]; [| discriminate].
  simpl in Hr.
  destruct (get_smart_defaults k p dc) as [m |]; [| discriminate]. simpl in Hr.
  rewrite (append_meter_list d ms m Hd) in Hr. simpl in Hr.
  destruct (IH _ (ms ++ [m])%list (added + 1) config' added'
              (dict_get_set_eq (VStr "meters") _ d (String.eqb_refl _)) Hr)
    as (new & d' & -> & Hd' & -> & Hother).
  exists (m :: new), d'. rewrite <- app_assoc in Hd'.
  repeat split; [exact Hd' | cbn [length]; lia |].
  intros k0 Hk0. rewrite (Hother k0 Hk0). now apply dict_get_set_other.
Qed.

Lemma existing_meters_mapping d ids config0 :
  existing_meters (VDict d) = Ok (ids, config0) ->
  (config0 = VDict d /\
   exists m, Py.dict_get (VStr "meters") d = Some m /\ Py.truthy m = true) \/
  (config0 = VDict (Py.dict_set (VStr "meters") (VList []) d) /\
   forall ms, Py.dict_get (VStr "meters") d = Some (VList ms) -> ms = []).
Proof.
  unfold existing_meters. simpl. unfold Py.dict_mem.
  destruct (Py.dict_get (VStr "meters") d) as [m |] eqn:Em; simpl.
  - destruct (Py.truthy m) eqn:Ht; simpl.
    + destruct (Py.iter m) as [ms |]; [| discriminate]. simpl.
      destruct (str_ids ms); [| discriminate]. simpl.
      intros H. injection H as _ <-. left. eauto.
    + intros H. injection H as _ <-. right. split; [reflexivity |].
      intros ms Hms. injection Hms as ->. now destruct ms.
  - intros H. injection H as _ <-. right. split; [reflexivity |]. discriminate.
Qed.

Section MergeMore.

Context {bytes : Type}.
Variable safe_dump : pyval -> bytes.
Variable safe_load : bytes -> exc pyval.

Abbreviation merge := (update_config_with_discovered_meters safe_dump safe_load).

(** X12: a merge never changes the catalog, and leaves every file other
    than the primary configuration as it was. *)
Theorem merge_frame (s : state bytes) :
  discovered_meters (state_of (merge s)) = discovered_meters s /\
  forall q, q <> config_path s ->
            files (disk (state_of (merge s))) !! q = files (disk s) !! q.
Proof.
  rewrite merge_run. destruct (negb _); [now split |].
  destruct (merge_plan safe_load s) as [[config added] |]; [| now split].
  destruct (0 <? added); [| now split].
  destruct (write_file _ _ _) as [d1 |] eqn:Hw; [| now split].
  split; [reflexivity |]. intros q Hq. exact (write_file_frame _ _ _ _ _ Hw Hq).
Qed.

(** X13: the document a writing pass puts back has the keys of the
    configuration it read, and its meter list is the list read with the
    new definitions at the end: the meters that were listed stay, in
    their order, and as many definitions follow them as the pass counts
    and logs.  When the configuration listed no meter, the list is new
    and the values under the other keys are the ones read.  When it
    listed some, nothing is said of the values under the other keys: one
    that is the same list object as [meters] grows with it. *)
Theorem merge_extends_meter_list (s : state bytes) b d config1 added d1 :
  Py.truthy (discovered_meters s) = true ->
  read_file (disk s) (config_path s) = Ok b ->
  safe_load b = Ok (VDict d) ->
  merge_plan safe_load s = Ok (config1, added) ->
  0 < added ->
  write_file (disk s) (config_path s) (safe_dump config1) = Ok d1 ->
  log_of (merge s) = merge_added s added /\
  exists dd new,
    config1 = VDict dd /\ added = Z.of_nat (length new) /\
    (forall ms, Py.dict_get (VStr "meters") d = Some (VList ms) ->
                Py.dict_get (VStr "meters") dd = Some (VList (ms ++ new))) /\
    (forall k, Py.scalar_eqb k (VStr "meters") = false ->
               Py.dict_mem k dd = Py.dict_mem k d) /\
    (no_meters d ->
     Py.dict_get (VStr "meters") dd = Some (VList new) /\
     forall k, Py.scalar_eqb k (VStr "meters") = false ->
               Py.dict_get k dd = Py.dict_get k d).
Proof.
  intros Ht Hb Hl Hp Hpos Hw. split.
  { rewrite merge_run, Ht, Hp. simpl.
    replace (0 <? added) with true by (symmetry; now apply Z.ltb_lt).
    now rewrite Hw. }
  unfold merge_plan in Hp. rewrite Hb in Hp. simpl in Hp. rewrite Hl in Hp.
  simpl in Hp.
  destruct (existing_meters (VDict d)) as [[ids config0] |] eqn:He; [| discriminate].
  simpl in Hp.
  destruct (Py.items (discovered_meters s)) as [items |]; [| discriminate].
  simpl in Hp.
  destruct (existing_meters_mapping _ _ _ He) as [[-> (m & Hm & Htm)] | [-> Hempty]].
  - destruct m as [| | | | ms |];
      try (apply (add_discovered_no_list items ids (max_meters s) d _ Hm) in Hp;
           [lia | reflexivity]).
    destruct (add_discovered_extends items ids (max_meters s) d ms 0 config1 added Hm Hp)
      as (new & dd & -> & Hdd & -> & Hother).
    exists dd, new. split; [reflexivity |]. split; [lia |]. split; [| split].
    + intros ms' Hms'. rewrite Hm in Hms'. now injection Hms' as <-.
    + intros k Hk. unfold Py.dict_mem. now rewrite (Hother k Hk).
    + unfold no_meters. rewrite Hm, Htm. discriminate.
  - destruct (add_discovered_extends items ids (max_meters s) _ [] 0 config1 added
                (dict_get_set_eq (VStr "meters") _ d (String.eqb_refl _)) Hp)
      as (new & dd & -> & Hdd & -> & Hother).
    assert (Hkeep : forall k, Py.scalar_eqb k (VStr "meters") = false ->
                              Py.dict_get k dd = Py.dict_get k d).
    { intros k Hk. rewrite (Hother k Hk). now apply dict_get_set_other. }
    exists dd, new. split; [reflexivity |]. split; [lia |]. split; [| split].
    + intros ms Hms. now rewrite (Hempty ms Hms).
    + intros k Hk. unfold Py.dict_mem. now rewrite (Hkeep k Hk).
    + intros _. split; [exact Hdd | exact Hkeep].
Qed.

(** X14: a pass adds no more definitions than [max_meters] (none when it
    is zero or less) and no more than the catalog has entries. *)
Theorem merge_budget (s : state bytes) config1 added :
  merge_plan safe_load s = Ok (config1, added) ->
  0 <= added /\ added <= Z.max 0 (max_meters s) /\
  forall items, discovered_meters s = VDict items -> added <= Z.of_nat (length items).
Proof.
  intros Hp. unfold merge_plan in Hp.
  destruct (read_file _ _) as [b |]; [| discriminate]. simpl in Hp.
  destruct (safe_load b) as [config |]; [| discriminate]. simpl in Hp.
  destruct (existing_meters config) as [ec |]; [| discriminate]. simpl in Hp.
  destruct (Py.items (discovered_meters s)) as [items |] eqn:Hi; [| discriminate].
  simpl in Hp. apply add_discovered_bound in Hp as (H1 & H2 & H3).
  split; [lia |]. split; [lia |].
  intros items' Hd. rewrite Hd in Hi. injection Hi as ->. lia.
Qed.

(** X15: when every meter_id of the catalog is already among the ids of
    the configuration, the pass writes nothing and logs nothing: the
    configuration file is not rewritten. *)
Theorem merge_all_present (s : state bytes) b config ids config0 items :
  read_file (disk s) (config_path s) = Ok b ->
  safe_load b = Ok config ->
  existing_meters config = Ok (ids, config0) ->
  discovered_meters s = VDict items ->
  (forall k info, In (k, info) items -> Py.in_str_set k ids = Ok true) ->
  merge s = (Ok tt, s, []).
Proof.
  intros Hb Hl He Hd Hall. rewrite merge_run.
  destruct (negb _); [reflexivity |].
  unfold merge_plan. rewrite Hb. simpl. rewrite Hl. simpl. rewrite He. simpl.
  rewrite Hd. simpl. now rewrite (add_discovered_all_present _ _ _ _ _ Hall).
Qed.

(** X16: a configuration file that parses to something that is neither
    [None] nor a mapping (a list, a text, a number, a boolean) aborts the
    pass with a TypeError, caught and logged; nothing is written. *)
Theorem merge_not_mapping (s : state bytes) b config :
  Py.truthy (discovered_meters s) = true ->
  read_file (disk s) (config_path s) = Ok b ->
  safe_load b = Ok config ->
  not_mapping config ->
  merge s = (Ok tt, s, merge_failed s TypeError).
Proof.
  intros Ht Hb Hl Hn. apply merge_aborts; [exact Ht |].
  unfold merge_plan. rewrite Hb. simpl. rewrite Hl. simpl.
  destruct config as [| x | z | t | l | d]; try contradiction; try reflexivity.
  - unfold existing_meters. simpl. now destruct (Str.contains "meters" t).
  - unfold existing_meters. simpl. now destruct (existsb _ l).
Qed.

End MergeMore.

Lemma merge_extends_meter_list_witness :
  let listed := VDict [(VStr "id", VInt 7)] in
  let d := [ (VStr "mqtt", VStr "broker"); (VStr "meters", VList [listed]) ] in
  let s := State "config.yaml" 25 true
             (VDict [(VStr "10", new_entry "scm" "gas" VNone)])
             (Plain.with_file "config.yaml" (VDict d) Plain.no_files) in
  log_of (update_config_with_discovered_meters Plain.dump Plain.load s) = merge_added s 1 /\
  exists dd m,
    merge_plan Plain.load s = Ok (VDict dd, 1) /\
    Py.dict_get (VStr "meters") dd = Some (VList [listed; m]) /\
    Py.dict_mem (VStr "mqtt") dd = true.
Proof.
  intros listed d s.
  destruct (merge_extends_meter_list Plain.dump Plain.load s (VDict d) d
              _ 1 _ eq_refl eq_refl eq_refl eq_refl eq_refl eq_refl)
    as (Hlog & dd & new & Hdd & Hlen & Hms & Hkeys & _).
  split; [exact Hlog |].
  destruct new as [| m [| m' new]]; cbn [length] in Hlen; [lia | | lia].
  exists dd, m. split; [now rewrite <- Hdd |].
  split; [exact (Hms [listed] eq_refl) | now rewrite (Hkeys (VStr "mqtt") eq_refl)].
Defined.

Lemma merge_budget_witness :
  let catalog := VDict [ (VStr "1", new_entry "scm" "gas" VNone);
                         (VStr "2", new_entry "scm" "gas" VNone) ] in
  let s := State "config.yaml" 1 false catalog
             (Plain.with_file "config.yaml" (VDict []) Plain.no_files) in
  exists config1, merge_plan Plain.load s = Ok (config1, 1) /\ 1 <= Z.max 0 (max_meters s).
Proof.
  intros catalog s. eexists. split; [reflexivity |].
  exact (proj1 (proj2 (merge_budget Plain.load s _ 1 eq_refl))).
Defined.

Lemma merge_all_present_witness :
  let config := VDict [(VStr "meters", VList [VDict [(VStr "id", VStr "10")]])] in
  let s := State "config.yaml" 25 true
             (VDict [(VStr "10", new_entry "scm" "gas" VNone)])
             (Plain.with_file "config.yaml" config Plain.no_files) in
  update_config_with_discovered_meters Plain.dump Plain.load s = (Ok tt, s, []).
Proof.
  intros config s.
  apply (merge_all_present Plain.dump Plain.load s config config ["10"] config
           [(VStr "10", new_entry "scm" "gas" VNone)]); try reflexivity.
  intros k info [H | []]. now injection H as <- _.
Defined.

Lemma merge_not_mapping_witness :
  let config := VList [VStr "meters"] in
  let s := State "config.yaml" 25 true
             (VDict [(VStr "10", new_entry "scm" "gas" VNone)])
             (Plain.with_file "config.yaml" config Plain.no_files) in
  not_mapping config /\
  update_config_with_discovered_meters Plain.dump Plain.load s
  = (Ok tt, s, merge_failed s TypeError).
Proof.
  intros config s. split; [exact I |].
  apply (merge_not_mapping Plain.dump Plain.load s config config); first [reflexivity | exact I].
Defined.

(** ** Across a restart *)

Section Restart.

Context {bytes : Type}.
Variable safe_dump : pyval -> bytes.
Variable safe_load : bytes -> exc pyval.

Lemma reload_same_doc (s : state bytes) max lg :
  codec_roundtrip safe_dump safe_load ->
  can_save s ->
  same_doc (discovered_meters s)
    (discovered_meters
       (state_of (init safe_load (config_path s) max lg
                    (disk (state_of (save_discovered_meters safe_dump s)))))).
Proof.
  intros Hrt Hs.
  pose proof (save_writes safe_dump s Hs) as Hf.
  destruct (Hrt (VDict [(VStr "discovered_meters", discovered_meters s)]))
    as (data & Hl & Hsame).
  apply same_doc_dict_inv in Hsame as (dd & -> & _ & Hget).
  destruct (same_doc_get _ dd (VStr "discovered_meters") (discovered_meters s) Hget)
    as (v & Hv & Hvs); [reflexivity |].
  now rewrite (load_reads safe_load _ max lg _ _ _ v dd Hf Hl Hv).
Qed.

(** X17: a meter that was in the catalog when it was saved is known to
    the tracker made afterwards on the same configuration path: the
    catalog it loads has as many entries, and a record call for that
    meter_id changes nothing, whatever the protocol and the consumption
    now observed. *)
Theorem reload_keeps_meters (s : state bytes) max lg d (meter_id : pyval) :
  codec_roundtrip safe_dump safe_load ->
  can_save s ->
  discovered_meters s = VDict d ->
  Py.hashable meter_id = true ->
  Py.dict_mem meter_id d = true ->
  let fresh := state_of (init safe_load (config_path s) max lg
                           (disk (state_of (save_discovered_meters safe_dump s)))) in
  (exists d', discovered_meters fresh = VDict d' /\ length d' = length d) /\
  forall protocol consumption,
    add_meter meter_id protocol consumption fresh = (Ok tt, fresh, []).
Proof.
  intros Hrt Hs Hd Hh Hm fresh.
  pose proof (reload_same_doc s max lg Hrt Hs) as Hsame. fold fresh in Hsame.
  rewrite Hd in Hsame.
  apply same_doc_dict_inv in Hsame as (d' & Hd' & Hlen & Hget).
  split; [exists d'; split; [exact Hd' | now symmetry] |].
  intros p c. apply add_meter_present. rewrite Hd'. simpl. rewrite Hh. f_equal.
  apply dict_mem_get in Hm as (v & Hv).
  destruct (same_doc_get d d' _ _ Hget Hv) as (v' & Hv' & _).
  apply dict_mem_get. eauto.
Qed.

End Restart.

Lemma reload_keeps_meters_witness :
  let catalog := [(VStr "10", new_entry "scm" "gas" (VInt 5000))] in
  let s := State "config.yaml" 25 false (VDict catalog) Plain.no_files in
  let fresh := state_of (init Plain.load "config.yaml" 25 false
                           (disk (state_of (save_discovered_meters Plain.dump s)))) in
  can_save s /\
  forall protocol consumption,
    add_meter (VStr "10") protocol consumption fresh = (Ok tt, fresh, []).
Proof.
  intros catalog s fresh. split; [reflexivity |].
  exact (proj2 (reload_keeps_meters Plain.dump Plain.load s 25 false catalog (VStr "10")
                  plain_roundtrip eq_refl eq_refl eq_refl eq_refl)).
Defined.

(** ** From an observation to a definition *)

Lemma lower_char_idempotent c : Str.lower_char (Str.lower_char c) = Str.lower_char c.
Proof. destruct c as [[] [] [] [] [] [] [] []]; reflexivity. Qed.

Lemma lower_idempotent s : Str.lower (Str.lower s) = Str.lower s.
Proof.
  induction s as [| c s IH]; [reflexivity |]. simpl.
  now rewrite lower_char_idempotent, IH.
Qed.

Lemma guess_meter_type_classify (p : string) (c : option Z) :
  guess_meter_type (VStr p) (optional_int c) = Ok (device_class_name (classify p c)).
Proof.
  unfold guess_meter_type, classify.
  rewrite protocol_normalised, !str_in_pair, !and_gt_exceeds by lia.
  repeat destruct (decide _); try reflexivity;
    simpl; destruct (exceeds c _); reflexivity.
Qed.

Lemma protocol_text_str p : protocol_text (VStr p) = p.
Proof. destruct p; reflexivity. Qed.

Section RecordMerge.

Context {bytes : Type}.
Variable safe_dump : pyval -> bytes.
Variable safe_load : bytes -> exc pyval.

(** X18: an observation recorded in an empty catalog and merged into a
    configuration that is empty or has an empty meter list gives a meter
    list of exactly one definition: the id is the integer of the
    meter_id, the protocol is in lower case, the device class is the one
    the classifier gives for the observation, and the name is meter_
    followed by the meter_id. *)
Theorem record_then_merge (s : state bytes) b config (z : Z) (p : string)
    (c : option Z) :
  discovered_meters s = VDict [] ->
  0 < max_meters s ->
  read_file (disk s) (config_path s) = Ok b ->
  safe_load b = Ok config ->
  config = VNone \/ config = VDict [(VStr "meters", VList [])] ->
  let s1 := state_of (add_meter (VStr (Str.of_int z)) (VStr p) (optional_int c) s) in
  exists m,
    merge_plan safe_load s1 = Ok (VDict [(VStr "meters", VList [m])], 1) /\
    Py.getitem m (VStr "id") = Ok (VInt z) /\
    Py.getitem m (VStr "protocol") = Ok (VStr (Str.lower p)) /\
    Py.getitem m (VStr "device_class")
    = Ok (VStr (device_class_name (classify p c))) /\
    Py.getitem m (VStr "name") = Ok (VStr ("meter_" +:+ Str.of_int z)).
Proof.
  intros Hd Hmax Hb Hl Hc s1.
  assert (Hg : guess_meter_type (VStr (protocol_text (VStr p))) (optional_int c)
               = Ok (device_class_name (classify p c)))
    by (rewrite protocol_text_str; apply guess_meter_type_classify).
  assert (E : s1 = set_discovered_meters
                     (VDict [(VStr (Str.of_int z),
                              new_entry p (device_class_name (classify p c))
                                (optional_int c))]) s).
  { unfold s1.
    rewrite (add_meter_new s [] (VStr (Str.of_int z)) (VStr p) (optional_int c) _
               Hd eq_refl eq_refl Hmax Hg).
    now rewrite protocol_text_str. }
  rewrite E. unfold merge_plan. simpl. rewrite Hb. simpl. rewrite Hl. simpl.
  assert (He : existing_meters config = Ok ([], VDict [(VStr "meters", VList [])]))
    by (destruct Hc as [-> | ->]; reflexivity).
  rewrite He. simpl.
  replace (0 <? max_meters s) with true by (symmetry; now apply Z.ltb_lt).
  simpl. unfold get_smart_defaults. simpl Py.to_int. rewrite to_int_of_int. simpl.
  rewrite lower_idempotent.
  destruct (classify p c); simpl; eexists; (split; [reflexivity |]);
    repeat split; reflexivity.
Qed.

(** X19: when the [meters] entry of the configuration is truthy and not
    a list (a mapping, a text, a number), the pass changes nothing: no
    definition can be appended to it and the file is not written. *)
Theorem merge_meters_not_list (s : state bytes) b d m :
  read_file (disk s) (config_path s) = Ok b ->
  safe_load b = Ok (VDict d) ->
  Py.dict_get (VStr "meters") d = Some m ->
  Py.truthy m = true ->
  (forall ms, m <> VList ms) ->
  state_of (update_config_with_discovered_meters safe_dump safe_load s) = s.
Proof.
  intros Hb Hl Hm Ht Hn. rewrite merge_run. destruct (negb _); [reflexivity |].
  destruct (merge_plan safe_load s) as [[config1 added] |] eqn:Hp; [| reflexivity].
  replace (0 <? added) with false; [reflexivity |].
  unfold merge_plan in Hp. rewrite Hb in Hp. simpl in Hp. rewrite Hl in Hp.
  unfold existing_meters in Hp. simpl in Hp. unfold Py.dict_mem in Hp.
  rewrite Hm in Hp. simpl in Hp. rewrite Ht in Hp. simpl in Hp.
  destruct (Py.iter m) as [ms |]; [| discriminate]. simpl in Hp.
  destruct (str_ids ms) as [ids |]; [| discriminate]. simpl in Hp.
  destruct (Py.items (discovered_meters s)) as [items |]; [| discriminate].
  simpl in Hp.
  apply (add_discovered_no_list items ids (max_meters s) d m Hm) in Hp.
  - now subst added.
  - intros x. destruct m; try reflexivity. now destruct (Hn l).
Qed.

End RecordMerge.

Lemma record_then_merge_witness :
  let s := State "config.yaml" 25 false (VDict [])
             (Plain.with_file "config.yaml" VNone Plain.no_files) in
  let s1 := state_of (add_meter (VStr (Str.of_int 10)) (VStr "SCM") (optional_int (Some 5000)) s) in
  exists m,
    merge_plan Plain.load s1 = Ok (VDict [(VStr "meters", VList [m])], 1) /\
    Py.getitem m (VStr "id") = Ok (VInt 10) /\
    Py.getitem m (VStr "protocol") = Ok (VStr "scm") /\
    Py.getitem m (VStr "device_class") = Ok (VStr "gas") /\
    Py.getitem m (VStr "name") = Ok (VStr "meter_10").
Proof.
  intros s.
  apply (record_then_merge Plain.load s VNone VNone 10 "SCM" (Some 5000));
    first [reflexivity | now left].
Defined.

Lemma merge_meters_not_list_witness :
  let config := VDict [(VStr "meters", VStr "none yet")] in
  let s := State "config.yaml" 25 false
             (VDict [(VStr "10", new_entry "scm" "gas" VNone)])
             (Plain.with_file "config.yaml" config Plain.no_files) in
  state_of (update_config_with_discovered_meters Plain.dump Plain.load s) = s.
Proof.
  intros config s.
  apply (merge_meters_not_list Plain.dump Plain.load s config
           [(VStr "meters", VStr "none yet")] (VStr "none yet"));
    try reflexivity.
  intros ms. discriminate.
Defined.
